(** * Time Police: the audit pipeline of [app.py]

    A shallow embedding of the time formatter, the fraud classifier, the
    provider client and the audit aggregator, and the properties of the
    written specification that are settled on it.

    Conventions.
    - A Python [int] is a [Z]; [//] and [%] with a positive divisor are
      [Z.div] and [Z.modulo] (both round towards minus infinity).
    - A Python [str] is a [string] holding its UTF-8 bytes.  The needles of
      every [in] test of the program are ASCII, and an ASCII byte never
      occurs inside a multi-byte UTF-8 sequence, so the substring test on
      bytes agrees with the one on code points.
    - [try: ... except Exception] is a computation in the exception monad
      [Exc] whose failure is caught.
    - The report's [timestamp] and [audit_period] (wall-clock time) are not
      part of the model. *)

From Stdlib Require Import ZArith List String Ascii Bool Lia QArith.
From Stdlib Require Import Permutation Sorted DecimalString.
From Stdlib Require Import DecimalPos DecimalZ.
Import ListNotations.

Local Open Scope string_scope.
Local Open Scope Z_scope.

(* ================================================================== *)
(** ** Python primitives used by the program *)
(* ================================================================== *)

Module Py.

(** [needle in hay] on strings. *)
Fixpoint str_in (needle hay : string) : bool :=
  String.prefix needle hay ||
  match hay with
  | EmptyString => false
  | String _ rest => str_in needle rest
  end.

(** [str(n)] / [f"{n}"] on an integer: decimal digits, with a leading minus
    sign for a negative number. *)
Definition str_of_int (n : Z) : string :=
  NilZero.string_of_int (Z.to_int n).

(** [sep.join(parts)]. *)
Definition join (sep : string) (parts : list string) : string :=
  String.concat sep parts.

(** [l.append(x)]. *)
Definition append {A : Type} (l : list A) (x : A) : list A := app l [x].

(** [any(p(x) for x in l)]. *)
Definition any {A : Type} (p : A -> bool) (l : list A) : bool := existsb p l.

(** [sorted(l, key=key)]: Python's sort is stable, so the result is the one
    arrangement of [l] in which the keys never decrease and elements with
    equal keys keep their order.  It is computed here by insertion from the
    right, each element going in front of the first element whose key is not
    smaller. *)
Section Sorted.
Context {A : Type} (key : A -> nat).

Fixpoint insert_by (x : A) (l : list A) : list A :=
  match l with
  | [] => [x]
  | y :: l' =>
      if (key x <=? key y)%nat then x :: l else y :: insert_by x l'
  end.

Fixpoint sorted (l : list A) : list A :=
  match l with
  | [] => []
  | x :: l' => insert_by x (sorted l')
  end.
End Sorted.

End Py.

(* ================================================================== *)
(** ** Exceptions *)
(* ================================================================== *)

Inductive Exception : Type :=
| RequestError                      (* httpx: the request itself failed *)
| HTTPStatusError (status : Z)      (* [response.raise_for_status()] *)
| JSONDecodeError                   (* [response.json()] *)
| AttributeError                    (* [.get] on a value that is no object *)
| ValueError                        (* [int()] on a text that is no number *)
| TypeError                         (* [int()] on null, a list or an object *)
| OverflowError                     (* a quotient too large for a float *)
| HTTPException (status_code : Z) (detail : string).

(** A computation that returns a value or raises. *)
Definition Exc (A : Type) : Type := (Exception + A)%type.

Definition ret {A : Type} (a : A) : Exc A := inr a.
Definition raise {A : Type} (e : Exception) : Exc A := inl e.
Definition bind {A B : Type} (c : Exc A) (k : A -> Exc B) : Exc B :=
  match c with
  | inl e => inl e
  | inr a => k a
  end.

Notation "x <- c ;; k" := (bind c (fun x => k))
  (at level 61, c at next level, right associativity).
Notation "c ;;; k" := (bind c (fun _ => k))
  (at level 61, right associativity).

(** [try: body / except Exception: return handler]. *)
Definition try_except {A : Type} (body : Exc A) (handler : Exception -> A) : A :=
  match body with
  | inl e => handler e
  | inr a => a
  end.

(** [for x in l: st = step st x], where [step] may raise. *)
Fixpoint for_each {S X : Type} (step : S -> X -> Exc S) (l : list X) (st : S)
  : Exc S :=
  match l with
  | [] => ret st
  | x :: l' => st' <- step st x ;; for_each step l' st'
  end.

(** [a / b] on integers, for a positive [b]: Python's true division.  It
    returns the double nearest to the exact quotient (ties to even) and
    raises OverflowError when that double would reach 2^1024 in magnitude,
    that is, when |a| / b >= 2^1024 - 2^970, the midpoint between the
    largest double and 2^1024.  The double a division returns is kept as
    the exact quotient it is nearest to. *)
Definition FLOAT_OVERFLOW : Z := Eval vm_compute in (2 ^ 1024 - 2 ^ 970).

Definition true_div (a : Z) (b : positive) : Exc Q :=
  if Z.pos b * FLOAT_OVERFLOW <=? Z.abs a
  then raise OverflowError
  else ret (a # b).

(* ================================================================== *)
(** ** Configuration *)
(* ================================================================== *)

Definition SHORT_TASK_THRESHOLD_MINUTES : Q := 5 # 1.

(* ================================================================== *)
(** ** Utility functions *)
(* ================================================================== *)

(** [ms_to_duration_str]. *)
Definition ms_to_duration_str (duration_ms : Z) : string :=
  let total_seconds := duration_ms / 1000 in
  let hours := total_seconds / 3600 in
  let minutes := (total_seconds mod 3600) / 60 in
  let seconds := total_seconds mod 60 in
  let parts : list string := [] in
  let parts := if 0 <? hours
               then Py.append parts (Py.str_of_int hours ++ "h") else parts in
  let parts := if 0 <? minutes
               then Py.append parts (Py.str_of_int minutes ++ "m") else parts in
  let parts := Py.append parts (Py.str_of_int seconds ++ "s") in
  Py.join " " parts.

(* ================================================================== *)
(** ** Fraud detection functions *)
(* ================================================================== *)

(** CHECK 1, the zero-seconds trap. *)
Definition check_zero_seconds_trap (duration_ms : Z) : bool :=
  let total_seconds := duration_ms / 1000 in
  let seconds := total_seconds mod 60 in
  (seconds =? 0) && (0 <? duration_ms).

(** CHECK 2, the short-task flag.  The division raises OverflowError on a
    duration whose quotient does not fit a float.  When it returns, the test
    [duration_minutes < 5] is made on the exact quotient: the double the
    program compares is the nearest one to that quotient, rounding is
    monotone and leaves 5 fixed, and the largest quotient below 5,
    299999/60000, is many ulps away from 5, so the test has the same outcome
    on the double as on the quotient. *)
Definition check_short_task (duration_ms : Z) : Exc bool :=
  duration_minutes <- true_div duration_ms 60000 ;;
  ret (negb (Qle_bool SHORT_TASK_THRESHOLD_MINUTES duration_minutes)).

Definition FRAUD_LABEL : string := "🚨 FRAUD (0s Signature)".
Definition POTENTIAL_LABEL : string := "⚠️ POTENTIAL FRAUD (Short Duration)".
Definition CLEAN_LABEL : string := "✅ CLEAN".

(** [get_verdict]. *)
Definition get_verdict (duration_ms : Z) : Exc string :=
  let verdicts : list string := [] in
  let verdicts := if check_zero_seconds_trap duration_ms
                  then Py.append verdicts FRAUD_LABEL else verdicts in
  short <- check_short_task duration_ms ;;
  let verdicts := if short
                  then Py.append verdicts POTENTIAL_LABEL else verdicts in
  ret (match verdicts with
       | [] => CLEAN_LABEL
       | _ => Py.join " | " verdicts
       end).

(* ================================================================== *)
(** ** The provider, as the client sees it *)
(* ================================================================== *)

(** The body of a response: text that is no JSON, JSON that is no object, or
    an object, of which the model keeps the fields the program reads. *)
Inductive Body (A : Type) : Type :=
| NotJson
| NotAnObject
| Object (fields : A).
Arguments NotJson {A}.
Arguments NotAnObject {A}.
Arguments Object {A} fields.

Record Response (A : Type) : Type := mkResponse {
  status_code : Z;
  body : Body A
}.
Arguments mkResponse {A}.
Arguments status_code {A}.
Arguments body {A}.

(** [response.raise_for_status()] of httpx: only a 2xx status passes. *)
Definition raise_for_status {A : Type} (response : Response A) : Exc unit :=
  if (200 <=? status_code response) && (status_code response <=? 299)
  then ret tt
  else raise (HTTPStatusError (status_code response)).

(** [response.json()]. *)
Definition json {A : Type} (response : Response A) : Exc (Body A) :=
  match body response with
  | NotJson => raise JSONDecodeError
  | b => ret b
  end.

(** [data.get(key, default)] applied to the decoded body; [field] reads the
    key from an object. *)
Definition get {A B : Type} (data : Body A) (field : A -> option B)
  (default : B) : Exc B :=
  match data with
  | Object o => ret (match field o with Some v => v | None => default end)
  | _ => raise AttributeError
  end.

Definition get_default {B : Type} (v : option B) (default : B) : B :=
  match v with Some b => b | None => default end.

(** What a key of a JSON object gives the program: the key is absent; or it
    holds a value of the shape the program goes on to use; or it holds
    another value (null, a number, a text, a list where an object is needed
    and so on). *)
Inductive Field (A : Type) : Type :=
| Missing
| Value (a : A)
| WrongShape.
Arguments Missing {A}.
Arguments Value {A} a.
Arguments WrongShape {A}.

(** The team document: [team.members[].user] with [id], [username], [email].
    An id is a number or a text; any other value stands as [IdStr] with the
    text [str()] makes of it.  [username] and [email] are stored and never
    read.  The items of [members] are objects or not; a text or an object
    under [members], which Python iterates item by item, stands as the list
    of its items, none of which is an object, and [WrongShape] is a value
    that cannot be iterated (null, a number, a boolean). *)
Inductive IdValue : Type := IdInt (n : Z) | IdStr (s : string).

Record UserObj : Type := mkUserObj {
  user_id : option IdValue;
  user_username : option string;
  user_email : option string
}.
Record MemberObj : Type := mkMemberObj { member_user : Field UserObj }.
Inductive Member : Type := IsObject (m : MemberObj) | NotObject.
Record TeamObj : Type := mkTeamObj { team_members : Field (list Member) }.
Record TeamPayload : Type := mkTeamPayload { payload_team : Field TeamObj }.

(** A raw time entry: [user], [task] (optional) and [duration].  An entry
    is an object whose [user] and [task], when they are there, are objects
    with texts for fields; an entry with a null [user], on which the loop of
    [run_audit] raises AttributeError, is not among them. *)
Record RawUser : Type := mkRawUser {
  raw_username : option string;
  raw_email : option string
}.
Record RawTask : Type := mkRawTask {
  raw_task_name : option string;
  raw_task_id : option string
}.
(** The [duration] field as [int()] takes it: a value that [int()] turns into
    [n] (a number, or the decimal text the provider sends), or one that it
    rejects: a text that is no number or a NaN (ValueError), a null, a list
    or an object (TypeError), an infinity (OverflowError). *)
Inductive IntError : Type := NotANumber | WrongType | Infinite.

Definition exception_of (why : IntError) : Exception :=
  match why with
  | NotANumber => ValueError
  | WrongType => TypeError
  | Infinite => OverflowError
  end.

Inductive RawDuration : Type := DurInt (n : Z) | DurRejected (why : IntError).
Record RawEntry : Type := mkRawEntry {
  entry_user : option RawUser;
  entry_task : option RawTask;
  entry_duration : option RawDuration
}.
Record EntriesPayload : Type := mkEntriesPayload {
  payload_data : option (list RawEntry)
}.

(** The outcome of [await client.get(url, ...)]. *)
Definition HttpCall (A : Type) : Type := Exc (Response A).

(** [httpx.AsyncClient], reduced to the two requests the program sends:
    [GET /team/{team_id}] and [GET /team/{team_id}/time_entries] with its
    [start_date], [end_date] and [assignee] parameters. *)
Record AsyncClient : Type := mkClient {
  get_team : string -> HttpCall TeamPayload;
  get_time_entries : string -> Z -> Z -> string -> HttpCall EntriesPayload
}.

(* ================================================================== *)
(** ** API functions *)
(* ================================================================== *)

Record User : Type := mkUser {
  id : string;
  username : string;
  email_of : string
}.

(** [str(user.get("id"))]. *)
Definition str_of_id (v : option IdValue) : string :=
  match v with
  | None => "None"
  | Some (IdInt n) => Py.str_of_int n
  | Some (IdStr s) => s
  end.

Definition empty_user : UserObj := mkUserObj None None None.

(** [data.get(key, default)] applied to the decoded body, for a key whose
    value is used as an object or a list: [Missing] stands for the default. *)
Definition get_field {A B : Type} (data : Body A) (field : A -> Field B)
  : Exc (Field B) :=
  match data with
  | Object o => ret (field o)
  | _ => raise AttributeError
  end.

(** The value a [.get] is then called on: the empty object when the key was
    absent; AttributeError on a value that is no object. *)
Definition as_object {A : Type} (v : Field A) (empty : A) : Exc A :=
  match v with
  | Missing => ret empty
  | Value a => ret a
  | WrongShape => raise AttributeError
  end.

(** The items a [for] loop goes through: none when the key was absent;
    TypeError on a value that cannot be iterated. *)
Definition iterate {A : Type} (v : Field (list A)) : Exc (list A) :=
  match v with
  | Missing => ret []
  | Value l => ret l
  | WrongShape => raise TypeError
  end.

(** [member.get] needs an object. *)
Definition member_object (member : Member) : Exc MemberObj :=
  match member with
  | IsObject m => ret m
  | NotObject => raise AttributeError
  end.

(** The body of [for member in members]. *)
Definition add_user (users : list User) (member : Member) : Exc (list User) :=
  m <- member_object member ;;
  user <- as_object (member_user m) empty_user ;;
  ret (Py.append users
         {| id := str_of_id (user_id user);
            username := get_default (user_username user) "Unknown";
            email_of := get_default (user_email user) "" |}).

(** The [try] block of [get_all_users]. *)
Definition get_all_users_try (client : AsyncClient) (team_id : string)
  : Exc (list User) :=
  response <- get_team client team_id ;;
  raise_for_status response ;;;
  data <- json response ;;
  team_value <- get_field data payload_team ;;
  team <- as_object team_value (mkTeamObj Missing) ;;
  members <- iterate (team_members team) ;;
  for_each add_user members [].

(** [get_all_users]: the block, and [except Exception: return []]. *)
Definition get_all_users (client : AsyncClient) (team_id : string) : list User :=
  try_except (get_all_users_try client team_id) (fun e => []).

(** The [try] block of [get_time_entries_for_user]. *)
Definition get_time_entries_for_user_try (client : AsyncClient)
  (team_id : string) (start_date end_date : Z) (user_id : string)
  : Exc (list RawEntry) :=
  response <- get_time_entries client team_id start_date end_date user_id ;;
  raise_for_status response ;;;
  data <- json response ;;
  get data payload_data [].

(** [get_time_entries_for_user]: the block, and
    [except Exception: return []]. *)
Definition get_time_entries_for_user (client : AsyncClient) (team_id : string)
  (start_date end_date : Z) (user_id : string) : list RawEntry :=
  try_except
    (get_time_entries_for_user_try client team_id start_date end_date user_id)
    (fun e => []).

(** [get_all_time_entries].  [asyncio.gather] returns the results in the
    order of the awaitables it was given. *)
Definition get_all_time_entries (client : AsyncClient) (team_id : string)
  (start_date end_date : Z) (user_ids : list string) : list RawEntry :=
  let results :=
    map (fun uid =>
           get_time_entries_for_user client team_id start_date end_date uid)
        user_ids in
  fold_left (fun all_entries entries => all_entries ++ entries)%list
            results [].

(* ================================================================== *)
(** ** Response models *)
(* ================================================================== *)

Record AuditSummary : Type := mkSummary {
  total : nat;
  fraud : nat;
  potential : nat;
  clean : nat
}.

Record TimeEntry : Type := mkTimeEntry {
  user : string;
  email : string;
  duration : string;
  duration_ms : Z;
  verdict : string
}.

Record TaskGroup : Type := mkTaskGroup {
  task_name : string;
  task_id : string;
  status : string;
  entries : list TimeEntry
}.

Record AuditResponse : Type := mkAuditResponse {
  success : bool;
  summary : AuditSummary;
  tasks : list TaskGroup
}.

(* ================================================================== *)
(** ** The audit endpoint *)
(* ================================================================== *)

(** ["FRAUD" in verdict and "POTENTIAL" not in verdict]. *)
Definition fraud_test (verdict : string) : bool :=
  Py.str_in "FRAUD" verdict && negb (Py.str_in "POTENTIAL" verdict).

(** ["POTENTIAL" in verdict]. *)
Definition potential_test (verdict : string) : bool :=
  Py.str_in "POTENTIAL" verdict.

(** [tasks_data]: a [defaultdict(list)] keyed by [(task_name, task_id)].  A
    dict iterates in the order its keys were first inserted, so it is kept as
    an association list in that order, with one binding per key. *)
Definition TaskKey : Type := (string * string)%type.
Definition TasksData : Type := list (TaskKey * list TimeEntry).

Definition key_eqb (k1 k2 : TaskKey) : bool :=
  String.eqb (fst k1) (fst k2) && String.eqb (snd k1) (snd k2).

(** [tasks_data[task_key].append(e)]. *)
Fixpoint dict_append (tasks_data : TasksData) (task_key : TaskKey)
  (e : TimeEntry) : TasksData :=
  match tasks_data with
  | [] => [(task_key, [e])]
  | (k, es) :: rest =>
      if key_eqb k task_key
      then (k, Py.append es e) :: rest
      else (k, es) :: dict_append rest task_key e
  end.

(** [int(entry.get("duration", 0))]. *)
Definition int_of_duration (d : option RawDuration) : Exc Z :=
  match d with
  | None => ret 0
  | Some (DurInt n) => ret n
  | Some (DurRejected why) => raise (exception_of why)
  end.

(** The variables the entry loop of [run_audit] updates. *)
Record LoopState : Type := mkState {
  tasks_data : TasksData;
  fraud_count : nat;
  potential_count : nat;
  clean_count : nat
}.

Definition initial_state : LoopState := mkState [] 0 0 0.

(** The body of [for entry in entries].  An absent or empty [task] and a task
    without [name] or [id] all end in the same defaults. *)
Definition process_entry (st : LoopState) (entry : RawEntry) : Exc LoopState :=
  let user := get_default (entry_user entry) (mkRawUser None None) in
  let user_name := get_default (raw_username user) "Unknown User" in
  let user_email := get_default (raw_email user) "" in
  let task := get_default (entry_task entry) (mkRawTask None None) in
  let task_name := get_default (raw_task_name task) "No Task" in
  let task_id := get_default (raw_task_id task) "N/A" in
  duration_ms <- int_of_duration (entry_duration entry) ;;
  let duration_str := ms_to_duration_str duration_ms in
  verdict <- get_verdict duration_ms ;;
  let st :=
    if fraud_test verdict
    then mkState (tasks_data st) (S (fraud_count st))
                 (potential_count st) (clean_count st)
    else if potential_test verdict
    then mkState (tasks_data st) (fraud_count st)
                 (S (potential_count st)) (clean_count st)
    else mkState (tasks_data st) (fraud_count st)
                 (potential_count st) (S (clean_count st)) in
  let task_key := (task_name, task_id) in
  ret (mkState
         (dict_append (tasks_data st) task_key
            {| user := user_name;
               email := user_email;
               duration := duration_str;
               duration_ms := duration_ms;
               verdict := verdict |})
         (fraud_count st) (potential_count st) (clean_count st)).

(** [get_task_status]. *)
Definition get_task_status (entries : list TimeEntry) : string :=
  let has_fraud := Py.any (fun e => fraud_test (verdict e)) entries in
  let has_potential := Py.any (fun e => potential_test (verdict e)) entries in
  if has_fraud then "fraud"
  else if has_potential then "potential"
  else "clean".

(** The sort key of the task groups. *)
Definition task_sort_key (x : TaskKey * list TimeEntry) : nat :=
  if String.eqb (get_task_status (snd x)) "fraud" then 0%nat
  else if String.eqb (get_task_status (snd x)) "potential" then 1%nat
  else 2%nat.

(** The sort key of the entries of a group. *)
Definition entry_sort_key (x : TimeEntry) : nat :=
  if fraud_test (verdict x) then 0%nat
  else if potential_test (verdict x) then 1%nat
  else 2%nat.

Definition sorted_tasks (tasks_data : TasksData) : TasksData :=
  Py.sorted task_sort_key tasks_data.

Definition task_groups (sorted_tasks : TasksData) : list TaskGroup :=
  map (fun item =>
         let '(task_key, entries) := item in
         {| task_name := fst task_key;
            task_id := snd task_key;
            status := get_task_status entries;
            entries := Py.sorted entry_sort_key entries |})
      sorted_tasks.

(** Steps 3 and 4 of [run_audit]: from the fetched entries to the report. *)
Definition build_report (entries : list RawEntry) : Exc AuditResponse :=
  st <- for_each process_entry entries initial_state ;;
  ret {| success := true;
         summary := {| total := List.length entries;
                       fraud := fraud_count st;
                       potential := potential_count st;
                       clean := clean_count st |};
         tasks := task_groups (sorted_tasks (tasks_data st)) |}.

(** [run_audit], from the audit window on. *)
Definition run_audit (client : AsyncClient) (TEAM_ID : string)
  (start_date_ms end_date_ms : Z) : Exc AuditResponse :=
  let users := get_all_users client TEAM_ID in
  match users with
  | [] => raise (HTTPException 500 "Failed to fetch users")
  | _ =>
      let user_ids := map id users in
      let entries :=
        get_all_time_entries client TEAM_ID start_date_ms end_date_ms user_ids in
      build_report entries
  end.

(* ================================================================== *)
(** ** Vocabulary of the specification *)
(* ================================================================== *)

(** The three severities, and the tier the program itself gives a verdict
    string: the three-way branch [if fraud_test .. elif potential_test ..
    else] that the entry loop counts by and the entry sort orders by.  It is
    the program's reading of its own string, not the severity of the
    specification: on the verdict that carries both labels it gives
    POTENTIAL_FRAUD (see [spec_severity]). *)
Inductive Severity : Type := FRAUD | POTENTIAL_FRAUD | CLEAN.

Definition severity_of_verdict (verdict : string) : Severity :=
  if fraud_test verdict then FRAUD
  else if potential_test verdict then POTENTIAL_FRAUD
  else CLEAN.

(** The severity of the verdict [get_verdict] returns. *)
Definition classify (duration_ms : Z) : Exc Severity :=
  verdict <- get_verdict duration_ms ;;
  ret (severity_of_verdict verdict).

(** The durations whose quotient by 60000 fits a float. *)
Definition fits_float (d : Z) : bool := Z.abs d <? 60000 * FLOAT_OVERFLOW.

(** What [check_short_task], [get_verdict] and [classify] return on such a
    duration: the short-task test on the exact quotient, the verdict string
    and its severity. *)
Definition short_of (d : Z) : bool :=
  negb (Qle_bool SHORT_TASK_THRESHOLD_MINUTES (d # 60000)).

Definition verdict_of (d : Z) : string :=
  let verdicts : list string := [] in
  let verdicts := if check_zero_seconds_trap d
                  then Py.append verdicts FRAUD_LABEL else verdicts in
  let verdicts := if short_of d
                  then Py.append verdicts POTENTIAL_LABEL else verdicts in
  match verdicts with
  | [] => CLEAN_LABEL
  | _ => Py.join " | " verdicts
  end.

Definition severity_of (d : Z) : Severity :=
  severity_of_verdict (verdict_of d).

Arguments true_div : simpl never.
Arguments check_short_task : simpl never.
Arguments get_verdict : simpl never.
Arguments classify : simpl never.
Arguments fits_float : simpl never.

(** The severity of a duration in the words of the specification: FRAUD
    whenever the zero-seconds rule fires, whether or not the short-task rule
    fires too; POTENTIAL_FRAUD when the short-task rule fires alone; CLEAN
    when neither fires. *)
Definition spec_severity (d : Z) : Severity :=
  if ((d / 1000) mod 60 =? 0) && (0 <? d) then FRAUD
  else if d <? 300000 then POTENTIAL_FRAUD
  else CLEAN.

(** [FRAUD > POTENTIAL_FRAUD > CLEAN]. *)
Definition rank (s : Severity) : nat :=
  match s with FRAUD => 2 | POTENTIAL_FRAUD => 1 | CLEAN => 0 end%nat.

Definition more_severe (s1 s2 : Severity) : Severity :=
  if (rank s2 <=? rank s1)%nat then s1 else s2.

(** The most severe of a list of severities ([CLEAN] when there is none). *)
Definition most_severe (l : list Severity) : Severity :=
  fold_right more_severe CLEAN l.

Definition status_name (s : Severity) : string :=
  match s with
  | FRAUD => "fraud"
  | POTENTIAL_FRAUD => "potential"
  | CLEAN => "clean"
  end.

(** The verdict string when both rules fire. *)
Definition BOTH_LABELS : string := FRAUD_LABEL ++ " | " ++ POTENTIAL_LABEL.

Definition severity_of_entry (e : TimeEntry) : Severity :=
  severity_of_verdict (verdict e).

(** Lists ordered by a key. *)
Section KeyOrder.
Context {A : Type} (key : A -> nat).

Definition key_le (a b : A) : Prop := (key a <= key b)%nat.

(** No key is smaller than a key before it. *)
Definition key_sorted (l : list A) : Prop := StronglySorted key_le l.

(** The elements of key [k], in the order of the list. *)
Definition with_key (k : nat) (l : list A) : list A :=
  filter (fun y => (key y =? k)%nat) l.

(** Each key is at most the next one. *)
Fixpoint nondecreasing (l : list A) : bool :=
  match l with
  | [] => true
  | a :: t =>
      match t with
      | [] => true
      | b :: _ => (key a <=? key b)%nat && nondecreasing t
      end
  end.
End KeyOrder.

(** The task groups of one status, in the order of the list. *)
Definition with_status (s : string) (d : TasksData) : TasksData :=
  filter (fun x => String.eqb (get_task_status (snd x)) s) d.

(** The grouping key the entry loop gives a raw entry. *)
Definition task_key_of (entry : RawEntry) : TaskKey :=
  let task := get_default (entry_task entry) (mkRawTask None None) in
  (get_default (raw_task_name task) "No Task",
   get_default (raw_task_id task) "N/A").

(** The keys of a list in the order in which each is met first. *)
Fixpoint first_seen (ks : list TaskKey) : list TaskKey :=
  match ks with
  | [] => []
  | k :: ks' => k :: filter (fun k' => negb (key_eqb k k')) (first_seen ks')
  end.

(** The number of entries of a given severity in a list, in the groups of a
    report, and the number of all entries in the groups. *)
Definition count_severity (s : Severity) (l : list TimeEntry) : nat :=
  List.length (filter (fun e => (rank (severity_of_entry e) =? rank s)%nat) l).

Definition count_in_groups (s : Severity) (gs : list TaskGroup) : nat :=
  list_sum (map (fun g => count_severity s (entries g)) gs).

Definition entries_in_groups (gs : list TaskGroup) : nat :=
  list_sum (map (fun g => List.length (entries g)) gs).

(** The duration string in the words of the specification: hours, minutes
    and seconds by integer division, the hours and the minutes left out when
    they are zero, the seconds always there. *)
Definition millisToDuration_spec (duration_ms : Z) : string :=
  let h := duration_ms / 3600000 in
  let m := (duration_ms / 60000) mod 60 in
  let s := (duration_ms / 1000) mod 60 in
  (if h =? 0 then "" else Py.str_of_int h ++ "h ") ++
  (if m =? 0 then "" else Py.str_of_int m ++ "m ") ++
  Py.str_of_int s ++ "s".

(** A failed call: the request raised, the status is not 2xx, or the body is
    not JSON or not a JSON object.  A JSON object with ill-shaped fields is
    an answered call. *)
Definition call_failed {A : Type} (call : HttpCall A) : Prop :=
  match call with
  | inl _ => True
  | inr response =>
      ~ (200 <= status_code response <= 299) \/
      body response = NotJson \/ body response = NotAnObject
  end.

Definition raises {A : Type} (c : Exc A) : Prop := exists e, c = inl e.

(** Counting in the dict of the entry loop. *)
Definition count_in_dict (s : Severity) (d : TasksData) : nat :=
  list_sum (map (fun x => count_severity s (snd x)) d).

Definition size_of_dict (d : TasksData) : nat :=
  list_sum (map (fun x => List.length (snd x)) d).

(** The counters of the loop agree with the entries stored so far. *)
Definition counters_agree (st : LoopState) : Prop :=
  fraud_count st = count_in_dict FRAUD (tasks_data st) /\
  potential_count st = count_in_dict POTENTIAL_FRAUD (tasks_data st) /\
  clean_count st = count_in_dict CLEAN (tasks_data st).

(* ================================================================== *)
(** ** The time-entry fetch when [data] is no list *)
(* ================================================================== *)

(** [get_time_entries_for_user] returns what stands under [data], whatever
    it is.  The payloads above hold a list there.  Here the value may also
    be null (a number or a boolean behaves as null does: none can be
    iterated), and the two functions are written once more on such
    payloads, the request being the one of [get_time_entries]. *)
Inductive PyData : Type :=
| PyList (l : list RawEntry)
| PyNone.

Record DataPayload : Type := mkDataPayload { data_value : option PyData }.

Definition DataRequest : Type :=
  string -> Z -> Z -> string -> HttpCall DataPayload.

(** [get_time_entries_for_user]. *)
Definition get_time_entries_for_user_raw (client_get : DataRequest)
  (team_id : string) (start_date end_date : Z) (user_id : string) : PyData :=
  try_except
    (response <- client_get team_id start_date end_date user_id ;;
     raise_for_status response ;;;
     data <- json response ;;
     get data data_value (PyList []))
    (fun e => PyList []).

(** [all_entries.extend(entries)]: TypeError on a value that cannot be
    iterated. *)
Definition extend (all_entries : list RawEntry) (entries : PyData)
  : Exc (list RawEntry) :=
  match entries with
  | PyList l => ret (all_entries ++ l)%list
  | PyNone => raise TypeError
  end.

(** [get_all_time_entries]. *)
Definition get_all_time_entries_raw (client_get : DataRequest)
  (team_id : string) (start_date end_date : Z) (user_ids : list string)
  : Exc (list RawEntry) :=
  let results :=
    map (fun uid =>
           get_time_entries_for_user_raw client_get team_id start_date
             end_date uid)
        user_ids in
  for_each extend results [].

(** The request of a client whose payloads hold a list under [data]. *)
Definition data_request (client : AsyncClient) : DataRequest :=
  fun team_id start_date end_date user_id =>
    match get_time_entries client team_id start_date end_date user_id with
    | inl e => inl e
    | inr response =>
        inr (mkResponse (status_code response)
               match body response with
               | NotJson => NotJson
               | NotAnObject => NotAnObject
               | Object p =>
                   Object (mkDataPayload (option_map PyList (payload_data p)))
               end)
    end.

(* ================================================================== *)
(** ** Sample providers *)
(* ================================================================== *)

(** A provider that is down: the team request is answered 503 with a body
    that is no JSON, the time-entry request does not get through. *)
Definition failing_client : AsyncClient :=
  mkClient (fun _ => inr (mkResponse 503 NotJson))
           (fun _ _ _ _ => inl RequestError).

Definition one_member_team : Response TeamPayload :=
  mkResponse 200
    (Object (mkTeamPayload (Value (mkTeamObj (Value
       [IsObject
          (mkMemberObj
             (Value (mkUserObj (Some (IdInt 7)) (Some "ann") None)))]))))).

(** A team document with a good member and one whose [user] is null. *)
Definition mixed_team : TeamPayload :=
  mkTeamPayload (Value (mkTeamObj (Value
    [IsObject (mkMemberObj
       (Value (mkUserObj (Some (IdInt 7)) (Some "ann") None)));
     IsObject (mkMemberObj WrongShape)]))).

Definition mixed_team_client : AsyncClient :=
  mkClient (fun _ => inr (mkResponse 200 (Object mixed_team)))
           (fun _ _ _ _ => inl RequestError).

(** A team of one whose only entry is of one minute. *)
Definition one_minute_client : AsyncClient :=
  mkClient (fun _ => inr one_member_team)
           (fun _ _ _ _ =>
              inr (mkResponse 200 (Object (mkEntriesPayload (Some
                [mkRawEntry None
                   (Some (mkRawTask (Some "Build") (Some "t1")))
                   (Some (DurInt 60000))]))))).

(** A team of one with a good entry and one whose duration is null. *)
Definition bad_duration_client : AsyncClient :=
  mkClient (fun _ => inr one_member_team)
           (fun _ _ _ _ =>
              inr (mkResponse 200 (Object (mkEntriesPayload (Some
                [mkRawEntry None None (Some (DurInt 301000));
                 mkRawEntry None None (Some (DurRejected WrongType))]))))).

(** A time-entry request answered 200 with the body [{"data": null}]. *)
Definition null_data_request : DataRequest :=
  fun _ _ _ _ => inr (mkResponse 200 (Object (mkDataPayload (Some PyNone)))).

(** A team of one whose time-entry requests all fail. *)
Definition quiet_client : AsyncClient :=
  mkClient (fun _ => inr one_member_team)
           (fun _ _ _ _ => inl RequestError).

Definition entry_of (task : option RawTask) (n : Z) : RawEntry :=
  mkRawEntry None task (Some (DurInt n)).

(** A provider that cannot be reached at all. *)
Definition failing_down_client : AsyncClient :=
  mkClient (fun _ => inl RequestError) (fun _ _ _ _ => inl RequestError).

(** A team of one with three entries under one task and one under another. *)
Definition busy_client : AsyncClient :=
  mkClient (fun _ => inr one_member_team)
           (fun _ _ _ _ =>
              inr (mkResponse 200 (Object (mkEntriesPayload (Some
                [entry_of (Some (mkRawTask (Some "Build") (Some "t1"))) 65000;
                 entry_of (Some (mkRawTask (Some "Build") (Some "t1"))) 600000;
                 entry_of None 301000;
                 entry_of (Some (mkRawTask (Some "Build") (Some "t1"))) 120000]))))).

Definition empty_report : AuditResponse :=
  mkAuditResponse true (mkSummary 0 0 0 0) [].

Definition report_of (c : Exc AuditResponse) : AuditResponse :=
  match c with inr r => r | inl _ => empty_report end.

(** The report of the audit of [busy_client], and its first group. *)
Definition busy_report : AuditResponse :=
  report_of (run_audit busy_client "team" 0 1).

Definition busy_group : TaskGroup :=
  hd (mkTaskGroup "" "" "" []) (tasks busy_report).

(** A key not among the keys [K]. *)
Definition unseen (K : list TaskKey) (k : TaskKey) : bool :=
  negb (existsb (fun k' => key_eqb k' k) K).

(** The three entries of the scenario of the specification, under one task. *)
Definition scenario_entries (u1 u2 u3 : option RawUser)
  (t : option RawTask) : list RawEntry :=
  [ mkRawEntry u1 t (Some (DurInt 600000));
    mkRawEntry u2 t (Some (DurInt 120000));
    mkRawEntry u3 t (Some (DurInt 3600000)) ].

(** A team of one whose entries are those of the scenario. *)
Definition scenario_client : AsyncClient :=
  mkClient (fun _ => inr one_member_team)
           (fun _ _ _ _ =>
              inr (mkResponse 200 (Object (mkEntriesPayload (Some
                (scenario_entries None None None
                   (Some (mkRawTask (Some "Build") (Some "t1"))))))))).

(** An entry as the loop stores it, and two groups already in tier order. *)
Definition stored_entry (n : Z) : TimeEntry :=
  mkTimeEntry "ann" "" (ms_to_duration_str n) n (verdict_of n).

Definition ordered_groups : TasksData :=
  [ (("Build", "t1"), [stored_entry 600000]);
    (("Review", "t2"), [stored_entry 125000; stored_entry 301000]);
    (("No Task", "N/A"), [stored_entry 301000]) ].

Definition busy_entries : list RawEntry :=
  [ entry_of (Some (mkRawTask (Some "Build") (Some "t1"))) 65000;
    entry_of None 301000;
    entry_of (Some (mkRawTask (Some "Build") (Some "t1"))) 600000 ].

Definition state_of (c : Exc LoopState) : LoopState :=
  match c with inr st => st | inl _ => initial_state end.

Definition busy_state : LoopState :=
  state_of (for_each process_entry busy_entries initial_state).

(* ================================================================== *)
(** ** The health endpoint *)
(* ================================================================== *)

(** The answer of [health_check], without its timestamp. *)
Record HealthReport : Type := mkHealth {
  api : string;
  clickup : string;
  team_id : string
}.

(** [health_check]: one request for the team document; the bare [except]
    catches whatever the request raises. *)
Definition health_check (client : AsyncClient) (TEAM_ID : string)
  : HealthReport :=
  let clickup_status :=
    try_except
      (response <- get_team client TEAM_ID ;;
       ret (if status_code response =? 200 then "connected" else "error"))
      (fun _ => "disconnected") in
  {| api := "healthy"; clickup := clickup_status; team_id := TEAM_ID |}.

(* ================================================================== *)
(** ** Vocabulary for the further properties *)
(* ================================================================== *)

(** The members of a team document, none when [team] or [members] is
    absent or ill-shaped. *)
Definition members_of (p : TeamPayload) : list Member :=
  match payload_team p with
  | Value team =>
      match team_members team with
      | Value members => members
      | _ => []
      end
  | _ => []
  end.

(** The user object of a member, the empty one when it has none. *)
Definition user_object (member : Member) : UserObj :=
  match member with
  | IsObject m =>
      match member_user m with
      | Value u => u
      | _ => empty_user
      end
  | NotObject => empty_user
  end.

(** The id [get_all_users] gives a member. *)
Definition id_of_member (member : Member) : string :=
  str_of_id (user_id (user_object member)).

(** A member is an object whose [user] is absent or an object; a team
    document is well shaped when [team] is absent or an object, [members] is
    absent or can be iterated, and every member is well shaped. *)
Definition well_shaped_member (member : Member) : bool :=
  match member with
  | IsObject m =>
      match member_user m with
      | WrongShape => false
      | _ => true
      end
  | NotObject => false
  end.

Definition well_shaped (p : TeamPayload) : bool :=
  match payload_team p with
  | Missing => true
  | WrongShape => false
  | Value team =>
      match team_members team with
      | Missing => true
      | WrongShape => false
      | Value members => forallb well_shaped_member members
      end
  end.

(** A call answered with a 2xx status and a JSON object. *)
Definition call_returns {A : Type} (call : HttpCall A) (p : A) : Prop :=
  exists response,
    call = inr response /\
    200 <= status_code response <= 299 /\
    body response = Object p.

(** The user [get_all_users] makes of a member. *)
Definition user_of_member (member : Member) : User :=
  let user := user_object member in
  {| id := str_of_id (user_id user);
     username := get_default (user_username user) "Unknown";
     email_of := get_default (user_email user) "" |}.

(** Decimal digits, and strings made of them. *)
Definition is_digit (c : ascii) : bool :=
  match uint_of_char c (Some Decimal.Nil) with
  | Some _ => true
  | None => false
  end.

Fixpoint all_digits (s : string) : bool :=
  match s with
  | EmptyString => true
  | String c s' => is_digit c && all_digits s'
  end.

(** The duration string of given hours, minutes and seconds. *)
Definition hms_str (h m s : Z) : string :=
  (if h =? 0 then "" else Py.str_of_int h ++ "h ") ++
  (if m =? 0 then "" else Py.str_of_int m ++ "m ") ++
  Py.str_of_int s ++ "s".

(** The duration of a raw entry whose [duration] is absent or a number. *)
Definition duration_of (entry : RawEntry) : Z :=
  match entry_duration entry with
  | Some (DurInt n) => n
  | _ => 0
  end.

(** The exception the turn of the loop raises on an entry, if it raises:
    that of [int()] on a duration it rejects, or the OverflowError of
    [check_short_task] on a duration beyond the float range. *)
Definition entry_error (entry : RawEntry) : option Exception :=
  match entry_duration entry with
  | Some (DurRejected why) => Some (exception_of why)
  | Some (DurInt n) => if fits_float n then None else Some OverflowError
  | None => None
  end.

Definition valid_duration (entry : RawEntry) : bool :=
  match entry_error entry with
  | None => true
  | Some _ => false
  end.

(** The state after a turn of the loop that stores an entry of [n] ms with
    verdict [v]. *)
Definition next_state (st : LoopState) (entry : RawEntry) (n : Z)
  (v : string) : LoopState :=
  mkState
    (dict_append (tasks_data st) (task_key_of entry)
       {| user := get_default
                    (raw_username
                       (get_default (entry_user entry) (mkRawUser None None)))
                    "Unknown User";
          email := get_default
                     (raw_email
                        (get_default (entry_user entry) (mkRawUser None None)))
                     "";
          duration := ms_to_duration_str n;
          duration_ms := n;
          verdict := v |})
    (if fraud_test v then S (fraud_count st) else fraud_count st)
    (if fraud_test v then potential_count st
     else if potential_test v then S (potential_count st)
     else potential_count st)
    (if fraud_test v then clean_count st
     else if potential_test v then clean_count st
     else S (clean_count st)).

(** The entry the loop stores for a raw entry. *)
Definition time_entry_of (entry : RawEntry) : TimeEntry :=
  let user := get_default (entry_user entry) (mkRawUser None None) in
  {| user := get_default (raw_username user) "Unknown User";
     email := get_default (raw_email user) "";
     duration := ms_to_duration_str (duration_of entry);
     duration_ms := duration_of entry;
     verdict := verdict_of (duration_of entry) |}.

(** The entries of one task among the fetched ones, in fetch order. *)
Definition bucket (k : TaskKey) (l : list RawEntry) : list TimeEntry :=
  map time_entry_of (filter (fun e => key_eqb (task_key_of e) k) l).

(** [tasks_data[k]] read without inserting: the entries under [k], or none. *)
Fixpoint dict_get (d : TasksData) (k : TaskKey) : list TimeEntry :=
  match d with
  | [] => []
  | (k', es) :: rest => if key_eqb k' k then es else dict_get rest k
  end.

(** The dict the entry loop builds from a dict [d] and entries [l]. *)
Definition group_entries (d : TasksData) (l : list RawEntry) : TasksData :=
  fold_left
    (fun d e => dict_append d (task_key_of e) (time_entry_of e)) l d.

(** The grouping key of a group of the report. *)
Definition group_key (g : TaskGroup) : TaskKey := (task_name g, task_id g).

(** The entries [run_audit] fetches: those of every user of the team. *)
Definition fetched_entries (client : AsyncClient) (TEAM_ID : string)
  (start_date_ms end_date_ms : Z) : list RawEntry :=
  get_all_time_entries client TEAM_ID start_date_ms end_date_ms
    (map id (get_all_users client TEAM_ID)).

(** The tier of a status name. *)
Definition status_tier (g : TaskGroup) : nat :=
  if String.eqb (status g) "fraud" then 0%nat
  else if String.eqb (status g) "potential" then 1%nat
  else 2%nat.

(** The number of elements of a list that pass a test. *)
Definition count_if {A : Type} (p : A -> bool) (l : list A) : nat :=
  List.length (filter p l).

(** The three severities as conditions on the milliseconds. *)
Definition is_fraud_ms (d : Z) : bool :=
  (300000 <=? d) && (d mod 60000 <? 1000).
Definition is_potential_ms (d : Z) : bool := d <? 300000.
Definition is_clean_ms (d : Z) : bool :=
  (300000 <=? d) && (1000 <=? d mod 60000).

(* ================================================================== *)
(** * Properties *)
(* ================================================================== *)

(** ** The classifier *)

Lemma short_of_lt (d : Z) : short_of d = (d <? 300000).
Proof.
  unfold short_of, SHORT_TASK_THRESHOLD_MINUTES, Qle_bool; simpl.
  destruct (Z.leb_spec 300000 (d * 1)), (Z.ltb_spec d 300000);
    simpl; try reflexivity; lia.
Qed.

Lemma check_zero_seconds_trap_spec (d : Z) :
  check_zero_seconds_trap d = true <-> (d / 1000) mod 60 = 0 /\ 0 < d.
Proof.
  unfold check_zero_seconds_trap.
  rewrite andb_true_iff, Z.eqb_eq, Z.ltb_lt. reflexivity.
Qed.

(** The four strings [verdict_of] can return. *)
Lemma verdict_of_cases (d : Z) :
  verdict_of d =
  match check_zero_seconds_trap d, short_of d with
  | true, true => BOTH_LABELS
  | true, false => FRAUD_LABEL
  | false, true => POTENTIAL_LABEL
  | false, false => CLEAN_LABEL
  end.
Proof.
  unfold verdict_of.
  destruct (check_zero_seconds_trap d), (short_of d); reflexivity.
Qed.

(** The severity the program derives, by the two rules that fired. *)
Lemma severity_of_cases (d : Z) :
  severity_of d =
  match check_zero_seconds_trap d, short_of d with
  | _, true => POTENTIAL_FRAUD
  | true, false => FRAUD
  | false, false => CLEAN
  end.
Proof.
  unfold severity_of. rewrite verdict_of_cases.
  destruct (check_zero_seconds_trap d), (short_of d);
    vm_compute; reflexivity.
Qed.

(** ** The float range *)

Lemma check_short_task_fits (d : Z) :
  check_short_task d =
  if fits_float d then ret (short_of d) else raise OverflowError.
Proof.
  unfold check_short_task, true_div, fits_float, short_of.
  change (Z.pos 60000) with 60000.
  destruct (Z.leb_spec (60000 * FLOAT_OVERFLOW) (Z.abs d)),
           (Z.ltb_spec (Z.abs d) (60000 * FLOAT_OVERFLOW));
    try reflexivity; lia.
Qed.

Lemma get_verdict_fits (d : Z) :
  get_verdict d =
  if fits_float d then ret (verdict_of d) else raise OverflowError.
Proof.
  unfold get_verdict, verdict_of. rewrite check_short_task_fits.
  destruct (fits_float d); reflexivity.
Qed.

Lemma classify_fits (d : Z) :
  classify d =
  if fits_float d then ret (severity_of d) else raise OverflowError.
Proof.
  unfold classify, severity_of. rewrite get_verdict_fits.
  destruct (fits_float d); reflexivity.
Qed.

Lemma get_verdict_returns (d : Z) (v : string) :
  get_verdict d = inr v -> fits_float d = true /\ v = verdict_of d.
Proof.
  rewrite get_verdict_fits. destruct (fits_float d); [|discriminate].
  intros H. injection H as <-. split; reflexivity.
Qed.

Lemma get_verdict_raises (d : Z) (e : Exception) :
  get_verdict d = inl e -> fits_float d = false /\ e = OverflowError.
Proof.
  rewrite get_verdict_fits. destruct (fits_float d); [discriminate|].
  intros H. injection H as <-. split; reflexivity.
Qed.

(** ** The stable sort *)

Section SortedFacts.
Context {A : Type} (key : A -> nat).

Lemma with_key_insert_by (k : nat) (x : A) (l : list A) :
  with_key key k (Py.insert_by key x l) =
  if (key x =? k)%nat then x :: with_key key k l else with_key key k l.
Proof.
  unfold with_key.
  induction l as [|y l IH]; simpl.
  - destruct (key x =? k)%nat; reflexivity.
  - destruct (Nat.leb_spec (key x) (key y)) as [Hle|Hlt]; simpl.
    + destruct (key x =? k)%nat; reflexivity.
    + rewrite IH.
      destruct (Nat.eqb_spec (key x) k), (Nat.eqb_spec (key y) k);
        try reflexivity; lia.
Qed.

(** Stability: the elements of one key are in the order they had. *)
Lemma with_key_sorted (k : nat) (l : list A) :
  with_key key k (Py.sorted key l) = with_key key k l.
Proof.
  induction l as [|x l IH]; simpl; [reflexivity|].
  rewrite with_key_insert_by, IH. unfold with_key; simpl.
  destruct (key x =? k)%nat; reflexivity.
Qed.

Lemma insert_by_perm (x : A) (l : list A) :
  Permutation (Py.insert_by key x l) (x :: l).
Proof.
  induction l as [|y l IH]; simpl; [apply Permutation_refl|].
  destruct (key x <=? key y)%nat; [apply Permutation_refl|].
  eapply perm_trans; [apply perm_skip, IH | apply perm_swap].
Qed.

Lemma sorted_perm (l : list A) : Permutation (Py.sorted key l) l.
Proof.
  induction l as [|x l IH]; simpl; [constructor|].
  eapply perm_trans; [apply insert_by_perm | apply perm_skip, IH].
Qed.

Lemma insert_by_key_sorted (x : A) (l : list A) :
  key_sorted key l -> key_sorted key (Py.insert_by key x l).
Proof.
  unfold key_sorted.
  induction 1 as [|y l Hs IH Hall]; simpl.
  - repeat constructor.
  - destruct (Nat.leb_spec (key x) (key y)) as [Hle|Hlt].
    + constructor; [constructor; assumption|].
      constructor; [exact Hle|].
      eapply Forall_impl; [|exact Hall].
      unfold key_le; intros; lia.
    + constructor; [exact IH|].
      eapply Permutation_Forall;
        [apply Permutation_sym, insert_by_perm|].
      constructor; [unfold key_le; lia | exact Hall].
Qed.

Lemma sorted_key_sorted (l : list A) : key_sorted key (Py.sorted key l).
Proof.
  induction l as [|x l IH]; simpl;
    [constructor | apply insert_by_key_sorted, IH].
Qed.

(** Sorting a list whose keys never decrease returns it as it is. *)
Lemma sorted_fixed (l : list A) : key_sorted key l -> Py.sorted key l = l.
Proof.
  unfold key_sorted.
  induction 1 as [|x l Hs IH Hall]; simpl; [reflexivity|].
  rewrite IH. destruct Hall as [|y l Hxy _]; simpl; [reflexivity|].
  unfold key_le in Hxy.
  destruct (Nat.leb_spec (key x) (key y)); [reflexivity | lia].
Qed.

Lemma sorted_idempotent (l : list A) :
  Py.sorted key (Py.sorted key l) = Py.sorted key l.
Proof. apply sorted_fixed, sorted_key_sorted. Qed.

Lemma with_key_none (k : nat) (l : list A) :
  Forall (fun y => key y <> k) l -> with_key key k l = [].
Proof.
  unfold with_key.
  induction 1 as [|y l Hy _ IH]; simpl; [reflexivity|].
  destruct (Nat.eqb_spec (key y) k); [contradiction | exact IH].
Qed.

(** A list of keys 0, 1, 2 that never decrease is its three tiers in a
    row. *)
Lemma key_sorted_tiers (l : list A) :
  key_sorted key l ->
  Forall (fun y => (key y <= 2)%nat) l ->
  l = (with_key key 0 l ++ with_key key 1 l ++ with_key key 2 l)%list.
Proof.
  unfold key_sorted.
  induction 1 as [|x l Hs IH Hall]; intros Hb; [reflexivity|].
  inversion Hb as [|? ? Hx Hl]; subst.
  specialize (IH Hl).
  assert (Hlow : forall k, (k < key x)%nat -> with_key key k l = []).
  { intros k Hk. apply with_key_none.
    eapply Forall_impl; [|exact Hall]. unfold key_le; intros; lia. }
  unfold with_key in *; simpl.
  destruct (key x) as [|[|[|n]]] eqn:Hk; simpl; try lia.
  - f_equal. exact IH.
  - rewrite (Hlow 0%nat) in * by lia. simpl in *. f_equal. exact IH.
  - rewrite (Hlow 0%nat), (Hlow 1%nat) in * by lia. simpl in *.
    f_equal. exact IH.
Qed.

Lemma sorted_tiers (l : list A) :
  (forall y, (key y <= 2)%nat) ->
  Py.sorted key l = (with_key key 0 l ++ with_key key 1 l ++ with_key key 2 l)%list.
Proof.
  intros Hb.
  rewrite (key_sorted_tiers (Py.sorted key l)).
  - rewrite !with_key_sorted. reflexivity.
  - apply sorted_key_sorted.
  - apply Forall_forall. intros y _. apply Hb.
Qed.

Lemma sorted_length (l : list A) :
  List.length (Py.sorted key l) = List.length l.
Proof. apply Permutation_length, sorted_perm. Qed.

Lemma sorted_existsb (p : A -> bool) (l : list A) :
  existsb p (Py.sorted key l) = existsb p l.
Proof.
  destruct (existsb p l) eqn:E.
  - apply existsb_exists in E as [x [Hin Hp]].
    apply existsb_exists. exists x. split; [|exact Hp].
    eapply Permutation_in; [apply Permutation_sym, sorted_perm | exact Hin].
  - destruct (existsb p (Py.sorted key l)) eqn:E'; [|reflexivity].
    apply existsb_exists in E' as [x [Hin Hp]].
    rewrite <- E. symmetry. apply existsb_exists. exists x.
    split; [|exact Hp].
    eapply Permutation_in; [apply sorted_perm | exact Hin].
Qed.

Lemma nondecreasing_fixed (l : list A) :
  nondecreasing key l = true -> Py.sorted key l = l.
Proof.
  induction l as [|x l IH]; simpl; [reflexivity|].
  destruct l as [|y l]; [reflexivity|].
  intros H. apply andb_true_iff in H as [Hxy Hl].
  rewrite (IH Hl). simpl. rewrite Hxy. reflexivity.
Qed.

Lemma sorted_filter_length (p : A -> bool) (l : list A) :
  List.length (filter p (Py.sorted key l)) = List.length (filter p l).
Proof.
  assert (Hins : forall x m,
             List.length (filter p (Py.insert_by key x m)) =
             List.length (filter p (x :: m))).
  { intros x m. induction m as [|y m IH]; simpl; [reflexivity|].
    destruct (key x <=? key y)%nat; simpl; [reflexivity|].
    simpl in IH. destruct (p y), (p x); simpl in *; rewrite IH; reflexivity. }
  induction l as [|x l IH]; simpl; [reflexivity|].
  rewrite Hins. simpl. destruct (p x); simpl; rewrite IH; reflexivity.
Qed.
End SortedFacts.

(** ** Claims on the classifier *)

(** C1 (evaluation at the failing inputs).  A duration of one minute, or of
    two, fires both rules: the verdict string carries both labels, the
    ["POTENTIAL" not in verdict] guard then rejects it as fraud, and the entry
    is counted in the potential bucket and sorted in the potential tier. *)
Theorem both_rules_counted_as_potential :
  check_zero_seconds_trap 60000 = true /\
  check_short_task 60000 = inr true /\
  get_verdict 60000 = inr BOTH_LABELS /\
  classify 60000 = inr POTENTIAL_FRAUD /\
  classify 120000 = inr POTENTIAL_FRAUD /\
  build_report [mkRawEntry None None (Some (DurInt 60000))] =
  inr {| success := true;
         summary := {| total := 1; fraud := 0; potential := 1; clean := 0 |};
         tasks := [ {| task_name := "No Task"; task_id := "N/A";
                       status := "potential";
                       entries := [ {| user := "Unknown User"; email := "";
                                       duration := "1m 0s";
                                       duration_ms := 60000;
                                       verdict := BOTH_LABELS |} ] |} ] |}.
Proof. repeat split; vm_compute; reflexivity. Qed.

(** What holds of the zero-seconds rule: its severity is FRAUD from five
    minutes on, and POTENTIAL_FRAUD below. *)
Lemma zero_seconds_severity (d : Z) :
  (d / 1000) mod 60 = 0 -> 0 < d ->
  severity_of d = if d <? 300000 then POTENTIAL_FRAUD else FRAUD.
Proof.
  intros H1 H2. rewrite severity_of_cases, short_of_lt.
  assert (Hz : check_zero_seconds_trap d = true)
    by (apply check_zero_seconds_trap_spec; split; assumption).
  rewrite Hz. destruct (d <? 300000); reflexivity.
Qed.






(** ** Claims on the time formatter *)

Lemma append_assoc (a b c : string) : (a ++ b) ++ c = a ++ b ++ c.
Proof. induction a as [|ch a IH]; simpl; [reflexivity | rewrite IH; reflexivity]. Qed.

Lemma hms_decomposition (d : Z) :
  (d / 1000) / 3600 = d / 3600000 /\
  ((d / 1000) mod 3600) / 60 = (d / 60000) mod 60.
Proof.
  split.
  - rewrite Z.div_div by lia. reflexivity.
  - replace 3600 with (60 * 60) by reflexivity.
    rewrite Z.rem_mul_r by lia.
    rewrite (Z.mul_comm 60 ((d / 1000 / 60) mod 60)), Z.div_add by lia.
    rewrite Z.div_div by lia.
    rewrite (Z.div_small ((d / 1000) mod 60) 60)
      by (apply Z.mod_pos_bound; lia).
    reflexivity.
Qed.

(** C9.  For a non-negative duration the string is made of the hours, the
    minutes and the seconds obtained by integer division, the hours and the
    minutes left out when zero and the seconds always written; the three
    parts add up to the whole seconds of the duration; and 5400000, 45000
    and 0 give "1h 30m 0s", "45s" and "0s". *)
Theorem ms_to_duration_str_decomposes (d : Z) :
  0 <= d ->
  ms_to_duration_str d = millisToDuration_spec d /\
  (let h := d / 3600000 in
   let m := (d / 60000) mod 60 in
   let s := (d / 1000) mod 60 in
   d / 1000 = 3600 * h + 60 * m + s /\ 0 <= h /\ 0 <= m < 60 /\ 0 <= s < 60) /\
  ms_to_duration_str 5400000 = "1h 30m 0s" /\
  ms_to_duration_str 45000 = "45s" /\
  ms_to_duration_str 0 = "0s".
Proof.
  intros Hd.
  destruct (hms_decomposition d) as [Hh Hm].
  split; [|split; [|repeat split; reflexivity]].
  - unfold ms_to_duration_str, millisToDuration_spec.
    rewrite Hh, Hm.
    assert (0 <= d / 3600000) by (apply Z.div_pos; lia).
    assert (0 <= (d / 60000) mod 60) by (apply Z.mod_pos_bound; lia).
    destruct (Z.ltb_spec 0 (d / 3600000)), (Z.eqb_spec (d / 3600000) 0);
      try lia;
      destruct (Z.ltb_spec 0 ((d / 60000) mod 60)),
               (Z.eqb_spec ((d / 60000) mod 60) 0);
      try lia; unfold Py.append, Py.join; simpl;
      rewrite ?append_assoc; reflexivity.
  - cbv zeta.
    assert (0 <= d / 3600000) by (apply Z.div_pos; lia).
    pose proof (Z.mod_pos_bound (d / 60000) 60 ltac:(lia)).
    pose proof (Z.mod_pos_bound (d / 1000) 60 ltac:(lia)).
    repeat split; try lia.
    rewrite <- Hh, <- Hm.
    pose proof (Z.div_mod (d / 1000) 3600 ltac:(lia)) as E1.
    pose proof (Z.div_mod ((d / 1000) mod 3600) 60 ltac:(lia)) as E2.
    rewrite Z.mod_mod_divide in E2 by (exists 60; reflexivity).
    lia.
Qed.

Lemma ms_to_duration_str_decomposes_witness :
  ms_to_duration_str 3725000 = "1h 2m 5s".
Proof.
  destruct (ms_to_duration_str_decomposes 3725000 ltac:(lia)) as [H _].
  rewrite H. reflexivity.
Defined.

(** ** Claims on the provider client *)

Lemma try_except_absorbs {A : Type} (c : Exc (list A)) :
  raises c -> try_except c (fun _ => []) = [].
Proof. intros [e ->]. reflexivity. Qed.

Lemma raise_for_status_raises {A : Type} (response : Response A) :
  ~ (200 <= status_code response <= 299) ->
  raise_for_status response = inl (HTTPStatusError (status_code response)).
Proof.
  intros Hn. unfold raise_for_status.
  destruct (Z.leb_spec 200 (status_code response)),
           (Z.leb_spec (status_code response) 299);
    simpl; try reflexivity; lia.
Qed.

(** When the request raises, the status is not 2xx, or the body is not a
    JSON object, the [try] block of [get_all_users] and of
    [get_time_entries_for_user] raises and the function returns the empty
    list. *)
Theorem provider_reads_fail_to_empty (client : AsyncClient) (team_id : string)
  (start_date end_date : Z) (uid : string) :
  (call_failed (get_team client team_id) ->
   raises (get_all_users_try client team_id) /\
   get_all_users client team_id = []) /\
  (call_failed (get_time_entries client team_id start_date end_date uid) ->
   raises (get_time_entries_for_user_try client team_id start_date end_date uid) /\
   get_time_entries_for_user client team_id start_date end_date uid = []).
Proof.
  split; intros Hf.
  - assert (Hr : raises (get_all_users_try client team_id)).
    { unfold get_all_users_try.
      destruct (get_team client team_id) as [e|response]; simpl in *.
      - exists e. reflexivity.
      - destruct Hf as [Hs|[Hb|Hb]].
        + rewrite (raise_for_status_raises _ Hs). eexists. reflexivity.
        + unfold json. rewrite Hb.
          destruct (raise_for_status response); eexists; reflexivity.
        + unfold json. rewrite Hb.
          destruct (raise_for_status response); eexists; reflexivity. }
    split; [exact Hr | apply try_except_absorbs, Hr].
  - assert (Hr : raises (get_time_entries_for_user_try
                           client team_id start_date end_date uid)).
    { unfold get_time_entries_for_user_try.
      destruct (get_time_entries client team_id start_date end_date uid)
        as [e|response]; simpl in *.
      - exists e. reflexivity.
      - destruct Hf as [Hs|[Hb|Hb]].
        + rewrite (raise_for_status_raises _ Hs). eexists. reflexivity.
        + unfold json. rewrite Hb.
          destruct (raise_for_status response); eexists; reflexivity.
        + unfold json. rewrite Hb.
          destruct (raise_for_status response); eexists; reflexivity. }
    split; [exact Hr | apply try_except_absorbs, Hr].
Qed.

Lemma provider_reads_fail_to_empty_witness :
  get_all_users failing_client "team" = [] /\
  get_time_entries_for_user failing_client "team" 0 1 "7" = [].
Proof.
  split.
  - apply (proj1 (provider_reads_fail_to_empty failing_client "team" 0 1 "7")).
    simpl. left. lia.
  - apply (proj2 (provider_reads_fail_to_empty failing_client "team" 0 1 "7")).
    simpl. exact I.
Defined.

(** C8 (evaluation at the failing input).  A time-entry request answered
    200 with the body [{"data": null}]: the payload is malformed, nothing in
    the [try] block raises, and [get_time_entries_for_user] returns the null
    as it is, not the empty list; the [extend] of [get_all_time_entries],
    which no [try] covers, then raises TypeError. *)
Theorem null_data_is_not_absorbed :
  get_time_entries_for_user_raw null_data_request "team" 0 1 "7" = PyNone /\
  get_time_entries_for_user_raw null_data_request "team" 0 1 "7"
    <> PyList [] /\
  get_all_time_entries_raw null_data_request "team" 0 1 ["7"]
    = inl TypeError.
Proof. repeat split; try reflexivity. discriminate. Qed.

Lemma fold_left_extend {A : Type} (results : list (list A)) (acc : list A) :
  fold_left (fun all_entries entries => all_entries ++ entries)%list results acc
  = (acc ++ List.concat results)%list.
Proof.
  revert acc. induction results as [|r results IH]; intros acc; simpl.
  - rewrite app_nil_r. reflexivity.
  - rewrite IH, app_assoc. reflexivity.
Qed.


(** C10.  [get_all_time_entries] returns the per-user entry lists joined end
    to end in the order of the user ids given. *)
Theorem get_all_time_entries_concat (client : AsyncClient) (team_id : string)
  (start_date end_date : Z) (user_ids : list string) :
  get_all_time_entries client team_id start_date end_date user_ids =
  List.concat (map (get_time_entries_for_user client team_id start_date end_date)
              user_ids).
Proof.
  unfold get_all_time_entries. rewrite fold_left_extend. reflexivity.
Qed.

(** ** Claims on the audit *)

Lemma build_report_no_entries :
  build_report [] =
  inr {| success := true;
         summary := {| total := 0; fraud := 0; potential := 0; clean := 0 |};
         tasks := [] |}.
Proof. reflexivity. Qed.

Lemma process_entry_not_http (st : LoopState) (entry : RawEntry)
  (code : Z) (detail : string) :
  process_entry st entry <> inl (HTTPException code detail).
Proof.
  unfold process_entry.
  destruct (int_of_duration (entry_duration entry)) as [e|n] eqn:En;
    cbn [bind].
  - destruct (entry_duration entry) as [[m|why]|]; simpl in En;
      try discriminate En.
    injection En as <-. destruct why; discriminate.
  - destruct (get_verdict n) as [e|v] eqn:E; cbn [bind];
      [|unfold ret; discriminate].
    apply get_verdict_raises in E as [_ ->]. discriminate.
Qed.

Lemma for_each_not_http (l : list RawEntry) (st : LoopState)
  (code : Z) (detail : string) :
  for_each process_entry l st <> inl (HTTPException code detail).
Proof.
  revert st. induction l as [|x l IH]; intros st; simpl; [discriminate|].
  destruct (process_entry st x) as [e|st'] eqn:E; simpl.
  - rewrite <- E. apply process_entry_not_http.
  - apply IH.
Qed.



(** ** The status of a group *)

Lemma get_task_status_values (l : list TimeEntry) :
  get_task_status l = "fraud" \/ get_task_status l = "potential" \/
  get_task_status l = "clean".
Proof.
  unfold get_task_status.
  destruct (Py.any _ l); [left; reflexivity|].
  destruct (Py.any _ l); [right; left|right; right]; reflexivity.
Qed.

Lemma task_sort_key_le (x : TaskKey * list TimeEntry) :
  (task_sort_key x <= 2)%nat.
Proof.
  unfold task_sort_key.
  destruct (get_task_status (snd x) =? "fraud")%string; [lia|].
  destruct (get_task_status (snd x) =? "potential")%string; lia.
Qed.

Lemma task_sort_key_status (x : TaskKey * list TimeEntry) :
  (task_sort_key x =? 0)%nat = (get_task_status (snd x) =? "fraud")%string /\
  (task_sort_key x =? 1)%nat = (get_task_status (snd x) =? "potential")%string /\
  (task_sort_key x =? 2)%nat = (get_task_status (snd x) =? "clean")%string.
Proof.
  unfold task_sort_key.
  destruct (get_task_status_values (snd x)) as [E|[E|E]]; rewrite E;
    repeat split; reflexivity.
Qed.

Lemma with_key_with_status (d : TasksData) :
  with_key task_sort_key 0 d = with_status "fraud" d /\
  with_key task_sort_key 1 d = with_status "potential" d /\
  with_key task_sort_key 2 d = with_status "clean" d.
Proof.
  unfold with_key, with_status.
  repeat split; apply filter_ext; intros x; apply task_sort_key_status.
Qed.

Lemma get_task_status_sorted (key : TimeEntry -> nat) (l : list TimeEntry) :
  get_task_status (Py.sorted key l) = get_task_status l.
Proof.
  unfold get_task_status, Py.any. rewrite !sorted_existsb. reflexivity.
Qed.

(** The status of a list of entries names the most severe of them. *)
Lemma get_task_status_most_severe (l : list TimeEntry) :
  get_task_status l = status_name (most_severe (map severity_of_entry l)).
Proof.
  induction l as [|x l IH]; [reflexivity|].
  unfold get_task_status, Py.any, most_severe in *. simpl.
  unfold severity_of_entry at 1. unfold severity_of_verdict.
  destruct (fraud_test (verdict x)), (potential_test (verdict x)),
    (existsb (fun e => fraud_test (verdict e)) l),
    (existsb (fun e => potential_test (verdict e)) l); simpl in *;
    destruct (fold_right more_severe CLEAN (map severity_of_entry l));
    try discriminate IH; reflexivity.
Qed.

Lemma most_severe_fraud (l : list Severity) :
  In FRAUD l -> most_severe l = FRAUD.
Proof.
  induction l as [|s l IH]; simpl; [contradiction|].
  intros [->|Hin]; unfold more_severe.
  - destruct (most_severe l); reflexivity.
  - rewrite (IH Hin). destruct s; reflexivity.
Qed.

(** Every group of a report built from a dict is one binding of the dict,
    with the status of its entries and the entries sorted. *)
Lemma in_task_groups (d : TasksData) (g : TaskGroup) :
  In g (task_groups (sorted_tasks d)) ->
  exists k es, In (k, es) d /\
    status g = get_task_status es /\
    entries g = Py.sorted entry_sort_key es.
Proof.
  unfold task_groups. intros Hin.
  apply in_map_iff in Hin as [[k es] [<- Hin]].
  exists k, es. repeat split.
  eapply Permutation_in; [apply sorted_perm | exact Hin].
Qed.

Lemma build_report_tasks (l : list RawEntry) (r : AuditResponse) :
  build_report l = inr r ->
  exists st, for_each process_entry l initial_state = inr st /\
    summary r = {| total := List.length l; fraud := fraud_count st;
                   potential := potential_count st;
                   clean := clean_count st |} /\
    tasks r = task_groups (sorted_tasks (tasks_data st)).
Proof.
  unfold build_report.
  destruct (for_each process_entry l initial_state) as [e|st]; simpl;
    [discriminate|].
  intros H. injection H as <-. exists st. repeat split.
Qed.

Lemma run_audit_report (client : AsyncClient) (TEAM_ID : string)
  (start_date_ms end_date_ms : Z) (r : AuditResponse) :
  run_audit client TEAM_ID start_date_ms end_date_ms = inr r ->
  exists l, build_report l = inr r.
Proof.
  unfold run_audit.
  destruct (get_all_users client TEAM_ID); [discriminate|].
  intros H. eexists. exact H.
Qed.

(** On the tiers the program itself gives its entries, the status of every
    task group of a report is the name of the most severe tier among its
    entries, and a group with an entry of the fraud tier has status
    "fraud". *)
Theorem group_status_most_severe (client : AsyncClient) (TEAM_ID : string)
  (start_date_ms end_date_ms : Z) (r : AuditResponse) (g : TaskGroup) :
  run_audit client TEAM_ID start_date_ms end_date_ms = inr r ->
  In g (tasks r) ->
  status g = status_name (most_severe (map severity_of_entry (entries g))) /\
  ((exists e, In e (entries g) /\ severity_of_entry e = FRAUD) ->
   status g = "fraud").
Proof.
  intros Hr Hg.
  apply run_audit_report in Hr as [l Hr].
  apply build_report_tasks in Hr as [st [_ [_ Ht]]].
  rewrite Ht in Hg. apply in_task_groups in Hg as [k [es [_ [Hs He]]]].
  assert (Hm : status g =
               status_name (most_severe (map severity_of_entry (entries g)))).
  { rewrite Hs, He, <- get_task_status_most_severe.
    symmetry. apply get_task_status_sorted. }
  split; [exact Hm|].
  intros [e [Hin Hsev]]. rewrite Hm, most_severe_fraud; [reflexivity|].
  rewrite <- Hsev. apply in_map, Hin.
Qed.

Lemma busy_report_ok : run_audit busy_client "team" 0 1 = inr busy_report.
Proof. vm_compute. reflexivity. Qed.

Lemma group_status_most_severe_witness :
  status busy_group =
  status_name (most_severe (map severity_of_entry (entries busy_group))) /\
  status busy_group = "fraud".
Proof.
  assert (Hin : In busy_group (tasks busy_report))
    by (vm_compute; left; reflexivity).
  split.
  - exact (proj1 (group_status_most_severe busy_client "team" 0 1
                    busy_report busy_group busy_report_ok Hin)).
  - apply (proj2 (group_status_most_severe busy_client "team" 0 1
                    busy_report busy_group busy_report_ok Hin)).
    destruct (entries busy_group) as [|e es] eqn:E;
      [vm_compute in E; discriminate E|].
    exists e. split; [left; reflexivity|].
    vm_compute in E. injection E as <- _. reflexivity.
Defined.

(** C2 (evaluation at the failing input).  The audit of a team whose only
    entry is of one minute: the zero-seconds rule fires on the entry, so its
    severity is FRAUD in the words of the specification and the group holds
    an entry of severity FRAUD; the status of the group is "potential". *)
Theorem one_minute_group_is_potential :
  exists r g e,
    run_audit one_minute_client "team" 0 1 = inr r /\
    tasks r = [g] /\ entries g = [e] /\
    duration_ms e = 60000 /\
    check_zero_seconds_trap (duration_ms e) = true /\
    spec_severity (duration_ms e) = FRAUD /\
    most_severe (map (fun x => spec_severity (duration_ms x)) (entries g))
    = FRAUD /\
    status g = "potential" /\
    status g <> status_name FRAUD.
Proof.
  eexists. eexists. eexists.
  split; [vm_compute; reflexivity|].
  split; [reflexivity|]. split; [reflexivity|].
  repeat split; try (vm_compute; reflexivity).
  vm_compute. discriminate.
Qed.

(** ** The entry loop *)

Lemma count_severity_app (s : Severity) (l1 l2 : list TimeEntry) :
  count_severity s (l1 ++ l2) = (count_severity s l1 + count_severity s l2)%nat.
Proof.
  unfold count_severity. rewrite filter_app, length_app. reflexivity.
Qed.

Lemma dict_append_count (s : Severity) (d : TasksData) (k : TaskKey)
  (e : TimeEntry) :
  count_in_dict s (dict_append d k e) =
  (count_in_dict s d + count_severity s [e])%nat.
Proof.
  unfold count_in_dict.
  induction d as [|[k' es] d IH]; simpl; [lia|].
  destruct (key_eqb k' k); simpl.
  - unfold Py.append. rewrite count_severity_app. lia.
  - rewrite IH. lia.
Qed.

Lemma dict_append_size (d : TasksData) (k : TaskKey) (e : TimeEntry) :
  size_of_dict (dict_append d k e) = S (size_of_dict d).
Proof.
  unfold size_of_dict.
  induction d as [|[k' es] d IH]; simpl; [reflexivity|].
  destruct (key_eqb k' k); simpl.
  - unfold Py.append. rewrite length_app. simpl. lia.
  - rewrite IH. lia.
Qed.

(** Every entry has exactly one severity. *)
Lemma count_severity_partition (l : list TimeEntry) :
  List.length l =
  (count_severity FRAUD l + count_severity POTENTIAL_FRAUD l +
   count_severity CLEAN l)%nat.
Proof.
  unfold count_severity.
  induction l as [|e l IH]; simpl; [reflexivity|].
  destruct (severity_of_entry e); simpl in IH |- *; lia.
Qed.

Lemma size_of_dict_partition (d : TasksData) :
  size_of_dict d =
  (count_in_dict FRAUD d + count_in_dict POTENTIAL_FRAUD d +
   count_in_dict CLEAN d)%nat.
Proof.
  unfold size_of_dict, count_in_dict.
  induction d as [|[k es] d IH]; simpl; [reflexivity|].
  rewrite IH, (count_severity_partition es). lia.
Qed.

(** One turn of the loop: the entry stored, and the counter of its severity
    raised by one. *)
Lemma process_entry_step (st st' : LoopState) (entry : RawEntry) :
  process_entry st entry = inr st' ->
  exists e,
    tasks_data st' = dict_append (tasks_data st) (task_key_of entry) e /\
    fraud_count st' = (fraud_count st + count_severity FRAUD [e])%nat /\
    potential_count st' =
      (potential_count st + count_severity POTENTIAL_FRAUD [e])%nat /\
    clean_count st' = (clean_count st + count_severity CLEAN [e])%nat.
Proof.
  unfold process_entry.
  destruct (int_of_duration (entry_duration entry)) as [ex|n]; simpl;
    [discriminate|].
  destruct (get_verdict n) as [ex|v]; simpl; [discriminate|].
  intros H. injection H as <-.
  eexists. split.
  - destruct (fraud_test v); [reflexivity|].
    destruct (potential_test v); reflexivity.
  - unfold count_severity, severity_of_entry, severity_of_verdict.
    cbn [verdict filter].
    destruct (fraud_test v); simpl; [lia|].
    destruct (potential_test v); simpl; lia.
Qed.

Lemma process_entry_agree (st st' : LoopState) (entry : RawEntry) :
  process_entry st entry = inr st' ->
  counters_agree st ->
  counters_agree st' /\
  size_of_dict (tasks_data st') = S (size_of_dict (tasks_data st)).
Proof.
  intros H [Hf [Hp Hc]].
  apply process_entry_step in H as [e [Hd [Hf' [Hp' Hc']]]].
  unfold counters_agree.
  rewrite Hd, !dict_append_count, dict_append_size. repeat split; lia.
Qed.

Lemma for_each_agree (l : list RawEntry) (st st' : LoopState) :
  for_each process_entry l st = inr st' ->
  counters_agree st ->
  counters_agree st' /\
  size_of_dict (tasks_data st') =
  (size_of_dict (tasks_data st) + List.length l)%nat.
Proof.
  revert st. induction l as [|x l IH]; intros st; simpl.
  - intros H Ha. injection H as <-. split; [exact Ha | lia].
  - destruct (process_entry st x) as [e|st1] eqn:E; simpl; [discriminate|].
    intros H Ha.
    destruct (process_entry_agree _ _ _ E Ha) as [Ha1 Hs1].
    destruct (IH _ H Ha1) as [Ha' Hs']. split; [exact Ha' | lia].
Qed.

(** The groups of the report hold the entries of the dict. *)
Lemma task_groups_counts (d : TasksData) :
  entries_in_groups (task_groups (sorted_tasks d)) = size_of_dict d /\
  forall s, count_in_groups s (task_groups (sorted_tasks d)) = count_in_dict s d.
Proof.
  unfold entries_in_groups, count_in_groups, size_of_dict, count_in_dict,
    task_groups, sorted_tasks.
  split; [|intros s]; rewrite map_map.
  - rewrite (Permutation_list_sum
               (Permutation_map _ (sorted_perm task_sort_key d))).
    f_equal. apply map_ext. intros [k es]. simpl. apply sorted_length.
  - rewrite (Permutation_list_sum
               (Permutation_map _ (sorted_perm task_sort_key d))).
    f_equal. apply map_ext. intros [k es]. simpl.
    unfold count_severity. apply sorted_filter_length.
Qed.

(** C5.  In every audit result the total is the sum of the fraud, potential
    and clean counts, each of which is the number of entries of that
    severity in the task groups, and the total is the number of entries in
    all the task groups. *)
Theorem summary_totals (client : AsyncClient) (TEAM_ID : string)
  (start_date_ms end_date_ms : Z) (r : AuditResponse) :
  run_audit client TEAM_ID start_date_ms end_date_ms = inr r ->
  total (summary r) =
    (fraud (summary r) + potential (summary r) + clean (summary r))%nat /\
  total (summary r) = entries_in_groups (tasks r) /\
  fraud (summary r) = count_in_groups FRAUD (tasks r) /\
  potential (summary r) = count_in_groups POTENTIAL_FRAUD (tasks r) /\
  clean (summary r) = count_in_groups CLEAN (tasks r).
Proof.
  intros Hr.
  apply run_audit_report in Hr as [l Hr].
  apply build_report_tasks in Hr as [st [Hloop [Hsum Ht]]].
  assert (Ha0 : counters_agree initial_state) by (repeat split).
  destruct (for_each_agree _ _ _ Hloop Ha0) as [[Hf [Hp Hc]] Hsize].
  destruct (task_groups_counts (tasks_data st)) as [Hn Hcnt].
  pose proof (size_of_dict_partition (tasks_data st)) as Hpart.
  rewrite Hsum, Ht, Hn, !Hcnt. simpl in *.
  repeat split; try assumption; lia.
Qed.

Lemma summary_totals_witness :
  total (summary busy_report) = 4%nat /\
  entries_in_groups (tasks busy_report) = 4%nat /\
  (fraud (summary busy_report) + potential (summary busy_report) +
   clean (summary busy_report) = 4)%nat.
Proof.
  destruct (summary_totals busy_client "team" 0 1 busy_report busy_report_ok)
    as [H1 [H2 _]].
  split; [reflexivity|]. split.
  - rewrite <- H2. reflexivity.
  - rewrite <- H1. reflexivity.
Defined.

(** ** The order of the groups *)

Lemma key_eqb_eq (a b : TaskKey) : key_eqb a b = true <-> a = b.
Proof.
  destruct a as [a1 a2], b as [b1 b2]. unfold key_eqb; simpl.
  rewrite andb_true_iff, !String.eqb_eq.
  split; [intros [-> ->]; reflexivity | intros H; injection H; auto].
Qed.

Lemma key_eqb_refl (a : TaskKey) : key_eqb a a = true.
Proof. apply key_eqb_eq. reflexivity. Qed.

Lemma dict_append_keys (d : TasksData) (k : TaskKey) (e : TimeEntry) :
  map fst (dict_append d k e) =
  if unseen (map fst d) k then (map fst d ++ [k])%list else map fst d.
Proof.
  unfold unseen.
  induction d as [|[k' es] d IH]; simpl; [reflexivity|].
  destruct (key_eqb k' k); simpl; [reflexivity|].
  rewrite IH. destruct (existsb _ (map fst d)); reflexivity.
Qed.

Lemma filter_filter {A : Type} (p q : A -> bool) (l : list A) :
  filter p (filter q l) = filter (fun x => q x && p x) l.
Proof.
  induction l as [|x l IH]; simpl; [reflexivity|].
  destruct (q x); simpl; [destruct (p x)|]; rewrite IH; reflexivity.
Qed.

Lemma unseen_app (K : list TaskKey) (k k' : TaskKey) :
  unseen (K ++ [k]) k' = negb (key_eqb k k') && unseen K k'.
Proof.
  unfold unseen. rewrite existsb_app. simpl.
  destruct (existsb _ K), (key_eqb k k'); reflexivity.
Qed.

Lemma unseen_seen (K : list TaskKey) (k k' : TaskKey) :
  unseen K k = false ->
  negb (key_eqb k k') && unseen K k' = unseen K k'.
Proof.
  intros Hk. destruct (key_eqb k k') eqn:E; simpl; [|reflexivity].
  apply key_eqb_eq in E. subst k'. symmetry. exact Hk.
Qed.

(** The keys of the dict after the loop: those it had, then the new ones in
    the order in which the entries bring them first. *)
Lemma for_each_keys (l : list RawEntry) (st st' : LoopState) :
  for_each process_entry l st = inr st' ->
  map fst (tasks_data st') =
  (map fst (tasks_data st) ++
   filter (unseen (map fst (tasks_data st)))
          (first_seen (map task_key_of l)))%list.
Proof.
  revert st. induction l as [|x l IH]; intros st; simpl.
  - intros H. injection H as <-. rewrite app_nil_r. reflexivity.
  - destruct (process_entry st x) as [ex|st1] eqn:E; simpl; [discriminate|].
    intros H. rewrite (IH _ H).
    apply process_entry_step in E as [e [Hd _]].
    rewrite Hd, dict_append_keys, filter_filter.
    destruct (unseen (map fst (tasks_data st)) (task_key_of x)) eqn:Hu.
    + rewrite <- app_assoc. simpl. do 2 f_equal.
      apply filter_ext. intros k'. apply unseen_app.
    + f_equal. apply filter_ext. intros k'.
      symmetry. apply unseen_seen, Hu.
Qed.

(** C6.  The sort of the task groups puts the groups of status fraud first,
    then those of status potential, then those of status clean, each tier in
    the order the groups had; sorting a sorted list, or any list already in
    tier order, returns the same list; and the order the groups had is the
    order in which the entries bring each task first. *)
Theorem group_sort_stable_three_tier (d : TasksData) :
  sorted_tasks d =
    (with_status "fraud" d ++ with_status "potential" d ++
     with_status "clean" d)%list /\
  sorted_tasks (sorted_tasks d) = sorted_tasks d /\
  (nondecreasing task_sort_key d = true -> sorted_tasks d = d) /\
  (forall l st,
     for_each process_entry l initial_state = inr st ->
     map fst (tasks_data st) = first_seen (map task_key_of l)).
Proof.
  unfold sorted_tasks. repeat split.
  - rewrite (sorted_tiers task_sort_key d task_sort_key_le).
    destruct (with_key_with_status d) as [-> [-> ->]]. reflexivity.
  - apply sorted_idempotent.
  - apply nondecreasing_fixed.
  - intros l st H. rewrite (for_each_keys _ _ _ H). simpl.
    induction (first_seen (map task_key_of l)) as [|k ks IH]; simpl;
      [reflexivity | rewrite IH; reflexivity].
Qed.

Lemma group_sort_stable_three_tier_witness :
  sorted_tasks ordered_groups = ordered_groups /\
  map fst (tasks_data busy_state) = [("Build", "t1"); ("No Task", "N/A")].
Proof.
  split.
  - apply (proj1 (proj2 (proj2 (group_sort_stable_three_tier ordered_groups)))).
    reflexivity.
  - rewrite (proj2 (proj2 (proj2 (group_sort_stable_three_tier [])))
               busy_entries busy_state eq_refl).
    reflexivity.
Defined.

(** ** The scenario *)

(** One turn of the loop on an entry whose duration [int()] takes and whose
    verdict is returned. *)
Lemma process_entry_eval (st : LoopState) (entry : RawEntry) (n : Z)
  (v : string) :
  int_of_duration (entry_duration entry) = inr n ->
  get_verdict n = inr v ->
  process_entry st entry = inr (next_state st entry n v).
Proof.
  intros Hn Hv. unfold process_entry, next_state.
  rewrite Hn. cbn [bind]. rewrite Hv. cbn [bind]. unfold ret.
  destruct (fraud_test v); [reflexivity|].
  destruct (potential_test v); reflexivity.
Qed.

Lemma build_report_scenario (u1 u2 u3 : option RawUser) (t : option RawTask) :
  exists r g,
    build_report (scenario_entries u1 u2 u3 t) = inr r /\
    tasks r = [g] /\
    status g = "fraud" /\
    map duration_ms (entries g) = [600000; 3600000; 120000] /\
    map verdict (entries g) = [FRAUD_LABEL; FRAUD_LABEL; BOTH_LABELS] /\
    map severity_of_entry (entries g) = [FRAUD; FRAUD; POTENTIAL_FRAUD].
Proof.
  assert (E1 : get_verdict 600000 = inr FRAUD_LABEL)
    by (vm_compute; reflexivity).
  assert (E2 : get_verdict 120000 = inr BOTH_LABELS)
    by (vm_compute; reflexivity).
  assert (E3 : get_verdict 3600000 = inr FRAUD_LABEL)
    by (vm_compute; reflexivity).
  unfold build_report, scenario_entries.
  cbn [for_each].
  rewrite (process_entry_eval _ (mkRawEntry u1 t (Some (DurInt 600000)))
             600000 _ eq_refl E1). cbn [bind].
  rewrite (process_entry_eval _ (mkRawEntry u2 t (Some (DurInt 120000)))
             120000 _ eq_refl E2). cbn [bind].
  rewrite (process_entry_eval _ (mkRawEntry u3 t (Some (DurInt 3600000)))
             3600000 _ eq_refl E3). cbn [bind ret]. unfold next_state.
  change (fraud_test FRAUD_LABEL) with true.
  change (fraud_test BOTH_LABELS) with false.
  change (potential_test BOTH_LABELS) with true.
  unfold task_key_of.
  cbn [tasks_data fraud_count potential_count clean_count initial_state
       entry_task entry_user].
  repeat (cbn [dict_append]; rewrite ?key_eqb_refl).
  unfold Py.append; cbn [app].
  eexists. eexists. split; [reflexivity|].
  cbn [tasks task_groups sorted_tasks Py.sorted Py.insert_by map].
  split; [reflexivity|].
  repeat split; vm_compute; reflexivity.
Qed.

(** C3.  When the entries fetched are the three of the scenario, of 600000,
    120000 and 3600000 ms under one task, the report has one group, its
    status is "fraud", and its sorted entries are the 600000 and the 3600000
    one, which carry the zero-seconds label alone, and then the 120000 one. *)
Theorem three_entry_scenario (client : AsyncClient) (TEAM_ID : string)
  (start_date_ms end_date_ms : Z) (u1 u2 u3 : option RawUser)
  (t : option RawTask) :
  get_all_users client TEAM_ID <> [] ->
  get_all_time_entries client TEAM_ID start_date_ms end_date_ms
    (map id (get_all_users client TEAM_ID)) = scenario_entries u1 u2 u3 t ->
  exists r g,
    run_audit client TEAM_ID start_date_ms end_date_ms = inr r /\
    tasks r = [g] /\
    status g = "fraud" /\
    map duration_ms (entries g) = [600000; 3600000; 120000] /\
    map verdict (entries g) = [FRAUD_LABEL; FRAUD_LABEL; BOTH_LABELS] /\
    map severity_of_entry (entries g) = [FRAUD; FRAUD; POTENTIAL_FRAUD].
Proof.
  intros Hne He. unfold run_audit.
  destruct (get_all_users client TEAM_ID) as [|u users] eqn:Hu;
    [contradiction|].
  rewrite He. apply build_report_scenario.
Qed.

Lemma three_entry_scenario_witness :
  exists r g,
    run_audit scenario_client "team" 0 1 = inr r /\
    tasks r = [g] /\
    status g = "fraud" /\
    map duration_ms (entries g) = [600000; 3600000; 120000] /\
    map verdict (entries g) = [FRAUD_LABEL; FRAUD_LABEL; BOTH_LABELS] /\
    map severity_of_entry (entries g) = [FRAUD; FRAUD; POTENTIAL_FRAUD].
Proof.
  apply (three_entry_scenario scenario_client "team" 0 1 None None None
           (Some (mkRawTask (Some "Build") (Some "t1")))).
  - vm_compute. discriminate.
  - reflexivity.
Defined.


(* ================================================================== *)
(** * Further properties *)
(* ================================================================== *)

(** ** The classifier, by the milliseconds *)

Lemma seconds_zero_iff (d : Z) :
  (d / 1000) mod 60 = 0 <-> d mod 60000 < 1000.
Proof.
  replace 60000 with (1000 * 60) by reflexivity.
  rewrite Z.rem_mul_r by lia.
  pose proof (Z.mod_pos_bound d 1000 ltac:(lia)).
  pose proof (Z.mod_pos_bound (d / 1000) 60 ltac:(lia)).
  lia.
Qed.

(** X1.  The zero-seconds trap fires exactly on a positive duration less than
    one second past a whole number of minutes; so it fires on every duration
    from 1 to 999 ms, and it has period 60000 ms on the positive durations. *)
Theorem check_zero_seconds_trap_window (d : Z) :
  (check_zero_seconds_trap d = true <-> 0 < d /\ d mod 60000 < 1000) /\
  (0 < d < 1000 -> check_zero_seconds_trap d = true) /\
  (0 < d -> check_zero_seconds_trap (d + 60000) = check_zero_seconds_trap d).
Proof.
  assert (Hw : forall x, check_zero_seconds_trap x = true <->
                         0 < x /\ x mod 60000 < 1000).
  { intros x. rewrite check_zero_seconds_trap_spec, seconds_zero_iff. tauto. }
  split; [apply Hw|]. split.
  - intros Hd. apply Hw. rewrite Z.mod_small by lia. lia.
  - intros Hd.
    assert (Hm : (d + 60000) mod 60000 = d mod 60000).
    { replace (d + 60000) with (d + 1 * 60000) by lia. apply Z.mod_add. lia. }
    destruct (check_zero_seconds_trap d) eqn:E.
    + apply Hw. apply Hw in E. rewrite Hm. lia.
    + destruct (check_zero_seconds_trap (d + 60000)) eqn:E'; [|reflexivity].
      apply Hw in E'. rewrite Hm in E'.
      assert (check_zero_seconds_trap d = true) by (apply Hw; lia).
      congruence.
Qed.

Lemma check_zero_seconds_trap_window_witness :
  check_zero_seconds_trap 500 = true /\
  check_zero_seconds_trap (125000 + 60000) = check_zero_seconds_trap 125000.
Proof.
  split.
  - apply (proj1 (proj2 (check_zero_seconds_trap_window 500))). lia.
  - apply (proj2 (proj2 (check_zero_seconds_trap_window 125000))). lia.
Defined.

Lemma severity_of_ms (d : Z) :
  severity_of d =
  if is_potential_ms d then POTENTIAL_FRAUD
  else if is_fraud_ms d then FRAUD else CLEAN.
Proof.
  rewrite severity_of_cases, short_of_lt.
  unfold is_potential_ms, is_fraud_ms.
  destruct (Z.ltb_spec d 300000) as [Hlt|Hge].
  - destruct (check_zero_seconds_trap d); reflexivity.
  - destruct (Z.leb_spec 300000 d); [|lia]. simpl.
    destruct (check_zero_seconds_trap d) eqn:E.
    + apply check_zero_seconds_trap_spec in E as [E _].
      apply seconds_zero_iff in E.
      destruct (Z.ltb_spec (d mod 60000) 1000); [reflexivity | lia].
    + destruct (Z.ltb_spec (d mod 60000) 1000) as [Hm|Hm]; [|reflexivity].
      assert (check_zero_seconds_trap d = true); [|congruence].
      apply check_zero_seconds_trap_spec. split; [|lia].
      apply seconds_zero_iff, Hm.
Qed.

(** X2.  The severity the program derives, by the milliseconds alone, with
    L = 60000 * (2^1024 - 2^970) the bound of the float range: it is
    POTENTIAL_FRAUD exactly for -L < d < 300000; for 300000 <= d < L it is
    FRAUD when the duration is less than a second past a whole minute and
    CLEAN otherwise; and exactly for |d| >= L there is none, the short-task
    test raising OverflowError. *)
Theorem classify_by_milliseconds (d : Z) :
  (classify d = inr POTENTIAL_FRAUD <->
   - (60000 * FLOAT_OVERFLOW) < d < 300000) /\
  (classify d = inr FRAUD <->
   300000 <= d < 60000 * FLOAT_OVERFLOW /\ d mod 60000 < 1000) /\
  (classify d = inr CLEAN <->
   300000 <= d < 60000 * FLOAT_OVERFLOW /\ 1000 <= d mod 60000) /\
  (classify d = inl OverflowError <-> 60000 * FLOAT_OVERFLOW <= Z.abs d).
Proof.
  assert (Hbig : 300000 < 60000 * FLOAT_OVERFLOW)
    by (vm_compute; reflexivity).
  rewrite classify_fits, severity_of_ms.
  unfold fits_float, is_potential_ms, is_fraud_ms.
  remember (60000 * FLOAT_OVERFLOW) as L eqn:HL. clear HL.
  destruct (Z.ltb_spec (Z.abs d) L) as [Hf|Hf].
  - destruct (Z.ltb_spec d 300000) as [Hs|Hs].
    + repeat split; try discriminate; try lia;
        intros H; try discriminate H; lia.
    + destruct (Z.leb_spec 300000 d) as [Hd|Hd]; [|lia]. cbn [andb].
      destruct (Z.ltb_spec (d mod 60000) 1000) as [Hm|Hm];
        repeat split; try discriminate; try lia;
        intros H; try discriminate H; lia.
  - repeat split; try discriminate; try lia;
      intros H; try discriminate H; lia.
Qed.

(** ** The time formatter on negative durations *)

(** X3.  A negative duration is written without hours and without a minus
    sign: its string is that of the duration reduced modulo one hour (so
    -1 ms reads "59m 59s"). *)
Theorem ms_to_duration_str_negative (d : Z) :
  d < 0 ->
  ms_to_duration_str d = ms_to_duration_str (d mod 3600000) /\
  0 <= d mod 3600000 < 3600000.
Proof.
  intros Hd.
  pose proof (Z.mod_pos_bound d 3600000 ltac:(lia)) as Hb.
  split; [|exact Hb].
  assert (Ht : (d mod 3600000) / 1000 = (d / 1000) mod 3600).
  { replace 3600000 with (1000 * 3600) by reflexivity.
    rewrite Z.rem_mul_r by lia.
    rewrite (Z.mul_comm 1000 ((d / 1000) mod 3600)), Z.div_add by lia.
    rewrite (Z.div_small (d mod 1000) 1000) by (apply Z.mod_pos_bound; lia).
    reflexivity. }
  unfold ms_to_duration_str. rewrite Ht.
  rewrite (Z.mod_mod ((d / 1000)) 3600) by lia.
  rewrite (Z.mod_mod_divide (d / 1000) 3600 60) by (exists 60; reflexivity).
  assert (Hh : d / 1000 / 3600 < 0).
  { rewrite Z.div_div by lia. apply Z.div_lt_upper_bound; lia. }
  assert (Hh' : (d / 1000) mod 3600 / 3600 = 0).
  { apply Z.div_small, Z.mod_pos_bound. lia. }
  rewrite Hh'.
  destruct (Z.ltb_spec 0 (d / 1000 / 3600)); [lia|]. reflexivity.
Qed.

Lemma ms_to_duration_str_negative_witness :
  ms_to_duration_str (-1) = "59m 59s".
Proof.
  rewrite (proj1 (ms_to_duration_str_negative (-1) ltac:(lia))).
  reflexivity.
Defined.

(** ** The provider client on answered calls *)

Lemma raise_for_status_passes {A : Type} (response : Response A) :
  200 <= status_code response <= 299 ->
  raise_for_status response = inr tt.
Proof.
  intros H. unfold raise_for_status.
  destruct (Z.leb_spec 200 (status_code response)),
           (Z.leb_spec (status_code response) 299);
    simpl; try reflexivity; lia.
Qed.

(** A call either failed or was answered 2xx with an object. *)
Lemma call_failed_or_returns {A : Type} (call : HttpCall A) :
  call_failed call \/ exists p, call_returns call p.
Proof.
  destruct call as [e|response]; [left; exact I|].
  destruct (Z.leb_spec 200 (status_code response)) as [H1|H1];
    [|left; simpl; left; lia].
  destruct (Z.leb_spec (status_code response) 299) as [H2|H2];
    [|left; simpl; left; lia].
  destruct (body response) as [| |p] eqn:Hb.
  - left. simpl. right. left. exact Hb.
  - left. simpl. right. right. exact Hb.
  - right. exists p, response. repeat split; assumption.
Qed.

Lemma call_failed_not_returns {A : Type} (call : HttpCall A) (p : A) :
  call_failed call -> call_returns call p -> False.
Proof.
  intros Hf [response [-> [Hs Hb]]]. simpl in Hf.
  destruct Hf as [Hf|[Hf|Hf]]; [lia | congruence | congruence].
Qed.

(** The loop over the members: every user in turn, or an exception at the
    first member that is ill-shaped. *)
Lemma add_user_loop (members : list Member) (users : list User) :
  if forallb well_shaped_member members
  then for_each add_user members users =
       inr (users ++ map user_of_member members)%list
  else exists e, for_each add_user members users = inl e.
Proof.
  revert users. induction members as [|m members IH]; intros users;
    cbn [forallb for_each map].
  - rewrite app_nil_r. reflexivity.
  - destruct (well_shaped_member m) eqn:Hm; cbn [andb].
    + assert (Ha : add_user users m =
                   inr (users ++ [user_of_member m])%list).
      { destruct m as [[[|u|]]|]; try discriminate Hm; reflexivity. }
      rewrite Ha. cbn [bind].
      specialize (IH (users ++ [user_of_member m])%list).
      destruct (forallb well_shaped_member members); [|exact IH].
      rewrite IH, <- app_assoc. reflexivity.
    + assert (Ha : exists e, add_user users m = inl e).
      { destruct m as [[[|u|]]|]; try discriminate Hm;
          eexists; reflexivity. }
      destruct Ha as [e ->]. exists e. reflexivity.
Qed.

Lemma get_all_users_returns (client : AsyncClient) (team : string)
  (p : TeamPayload) :
  call_returns (get_team client team) p ->
  get_all_users client team =
  if well_shaped p then map user_of_member (members_of p) else [].
Proof.
  intros [response [Hc [Hs Hb]]].
  unfold get_all_users, get_all_users_try. rewrite Hc. simpl.
  rewrite (raise_for_status_passes _ Hs). simpl.
  unfold json. rewrite Hb. simpl.
  unfold well_shaped, members_of.
  destruct (payload_team p) as [|[[|members|]]|]; simpl; try reflexivity.
  pose proof (add_user_loop members []) as Hl.
  destruct (forallb well_shaped_member members).
  - rewrite Hl. reflexivity.
  - destruct Hl as [e ->]. reflexivity.
Qed.

Lemma get_all_users_failed (client : AsyncClient) (team : string) :
  call_failed (get_team client team) -> get_all_users client team = [].
Proof.
  intros Hf. unfold get_all_users, get_all_users_try.
  destruct (get_team client team) as [e|response]; simpl in *; [reflexivity|].
  destruct Hf as [Hs|[Hb|Hb]].
  - rewrite (raise_for_status_raises _ Hs). reflexivity.
  - unfold json. rewrite Hb. destruct (raise_for_status response); reflexivity.
  - unfold json. rewrite Hb. destruct (raise_for_status response); reflexivity.
Qed.

Lemma get_time_entries_for_user_returns (client : AsyncClient) (team : string)
  (start_date end_date : Z) (uid : string) (p : EntriesPayload) :
  call_returns (get_time_entries client team start_date end_date uid) p ->
  get_time_entries_for_user client team start_date end_date uid =
  get_default (payload_data p) [].
Proof.
  intros [response [Hc [Hs Hb]]].
  unfold get_time_entries_for_user, get_time_entries_for_user_try.
  rewrite Hc. simpl. rewrite (raise_for_status_passes _ Hs). simpl.
  unfold json. rewrite Hb. simpl. destruct (payload_data p); reflexivity.
Qed.

Lemma get_time_entries_for_user_failed (client : AsyncClient) (team : string)
  (start_date end_date : Z) (uid : string) :
  call_failed (get_time_entries client team start_date end_date uid) ->
  get_time_entries_for_user client team start_date end_date uid = [].
Proof.
  intros Hf. unfold get_time_entries_for_user, get_time_entries_for_user_try.
  destruct (get_time_entries client team start_date end_date uid)
    as [e|response]; simpl in *; [reflexivity|].
  destruct Hf as [Hs|[Hb|Hb]].
  - rewrite (raise_for_status_raises _ Hs). reflexivity.
  - unfold json. rewrite Hb. destruct (raise_for_status response); reflexivity.
  - unfold json. rewrite Hb. destruct (raise_for_status response); reflexivity.
Qed.

(** X4.  When the team request is answered 2xx with a JSON object whose team
    document is well shaped ([team] absent or an object, [members] absent
    or a list, every member an object whose [user] is absent or an object),
    [get_all_users] returns one user per member, in the order of the
    document; the id of a member is the text of its [user.id], and "None"
    when the member has no [user] or no [id].  When the document is not
    well shaped, one ill-shaped member is enough, the result is the empty
    list for the whole team. *)
Theorem get_all_users_one_per_member (client : AsyncClient) (team : string)
  (p : TeamPayload) :
  call_returns (get_team client team) p ->
  (well_shaped p = true ->
   List.length (get_all_users client team) = List.length (members_of p) /\
   map id (get_all_users client team) = map id_of_member (members_of p) /\
   (forall m, In (IsObject m) (members_of p) ->
      member_user m = Missing \/
      (exists u, member_user m = Value u /\ user_id u = None) ->
      In "None" (map id (get_all_users client team)))) /\
  (well_shaped p = false -> get_all_users client team = []).
Proof.
  intros Hr. rewrite (get_all_users_returns _ _ _ Hr).
  split; intros Hw; rewrite Hw; [|reflexivity].
  rewrite length_map, map_map. split; [reflexivity|]. split; [reflexivity|].
  intros m Hin Hnone. apply in_map_iff. exists (IsObject m).
  split; [|exact Hin]. unfold user_of_member, user_object; simpl.
  destruct Hnone as [->|[u [-> Hu]]]; simpl; [reflexivity|].
  rewrite Hu. reflexivity.
Qed.

Lemma get_all_users_one_per_member_witness :
  map id (get_all_users busy_client "team") = ["7"] /\
  get_all_users mixed_team_client "team" = [].
Proof.
  split.
  - assert (Hr : call_returns (get_team busy_client "team")
       (mkTeamPayload (Value (mkTeamObj (Value
          [IsObject (mkMemberObj
             (Value (mkUserObj (Some (IdInt 7)) (Some "ann") None)))]))))).
    { eexists. split; [reflexivity|]. split; [simpl; lia | reflexivity]. }
    rewrite (proj1 (proj2 (proj1 (get_all_users_one_per_member _ _ _ Hr)
                             eq_refl))).
    reflexivity.
  - assert (Hr : call_returns (get_team mixed_team_client "team")
                   mixed_team).
    { eexists. split; [reflexivity|]. split; [simpl; lia | reflexivity]. }
    apply (proj2 (get_all_users_one_per_member _ _ _ Hr)). reflexivity.
Defined.

(** X5.  [get_all_users] returns the empty list in three cases only: the
    call failed; or it was answered with a document that is not well
    shaped; or with a well-shaped document that has no member (no [team],
    no [members], or an empty list). *)
Theorem get_all_users_empty_iff (client : AsyncClient) (team : string) :
  get_all_users client team = [] <->
  call_failed (get_team client team) \/
  exists p, call_returns (get_team client team) p /\
            (well_shaped p = false \/ members_of p = []).
Proof.
  split.
  - intros He.
    destruct (call_failed_or_returns (get_team client team)) as [Hf|[p Hr]];
      [left; exact Hf|].
    right. exists p. split; [exact Hr|].
    rewrite (get_all_users_returns _ _ _ Hr) in He.
    destruct (well_shaped p); [right | left; reflexivity].
    destruct (members_of p); [reflexivity | discriminate He].
  - intros [Hf|[p [Hr [Hw|Hm]]]].
    + apply get_all_users_failed, Hf.
    + rewrite (get_all_users_returns _ _ _ Hr), Hw. reflexivity.
    + rewrite (get_all_users_returns _ _ _ Hr), Hm.
      destruct (well_shaped p); reflexivity.
Qed.

(** X6.  [get_time_entries_for_user] returns the list under [data] when the
    call is answered 2xx with a JSON object (the empty list when [data] is
    absent), and a non-empty result always comes from such an answer. *)
Theorem get_time_entries_for_user_data (client : AsyncClient) (team : string)
  (start_date end_date : Z) (uid : string) :
  (forall p,
     call_returns (get_time_entries client team start_date end_date uid) p ->
     get_time_entries_for_user client team start_date end_date uid =
     get_default (payload_data p) []) /\
  (get_time_entries_for_user client team start_date end_date uid <> [] ->
   exists p,
     call_returns (get_time_entries client team start_date end_date uid) p /\
     payload_data p =
     Some (get_time_entries_for_user client team start_date end_date uid)).
Proof.
  split.
  - intros p Hr. apply get_time_entries_for_user_returns, Hr.
  - intros Hne.
    destruct (call_failed_or_returns
                (get_time_entries client team start_date end_date uid))
      as [Hf|[p Hr]].
    + exfalso. apply Hne, get_time_entries_for_user_failed, Hf.
    + exists p. split; [exact Hr|].
      rewrite (get_time_entries_for_user_returns _ _ _ _ _ _ Hr) in *.
      destruct (payload_data p); [reflexivity|].
      exfalso. apply Hne. reflexivity.
Qed.

Lemma get_time_entries_for_user_data_witness :
  exists p,
    call_returns (get_time_entries scenario_client "team" 0 1 "7") p /\
    payload_data p = Some (get_time_entries_for_user scenario_client "team" 0 1 "7").
Proof.
  apply (proj2 (get_time_entries_for_user_data scenario_client "team" 0 1 "7")).
  vm_compute. discriminate.
Defined.

Lemma get_all_time_entries_flat (client : AsyncClient) (team : string)
  (start_date end_date : Z) (user_ids : list string) :
  get_all_time_entries client team start_date end_date user_ids =
  flat_map (get_time_entries_for_user client team start_date end_date)
           user_ids.
Proof.
  unfold get_all_time_entries. rewrite fold_left_extend, flat_map_concat_map.
  reflexivity.
Qed.

(** X7.  The entries of a list of users are those of its first part followed
    by those of its second part, and a user whose call fails contributes
    nothing: the entries of the other users are returned as if that user
    were not in the list. *)
Theorem get_all_time_entries_isolation (client : AsyncClient) (team : string)
  (start_date end_date : Z) (before after : list string) (uid : string) :
  get_all_time_entries client team start_date end_date (before ++ after) =
    (get_all_time_entries client team start_date end_date before ++
     get_all_time_entries client team start_date end_date after)%list /\
  (call_failed (get_time_entries client team start_date end_date uid) ->
   get_all_time_entries client team start_date end_date
     (before ++ uid :: after) =
   get_all_time_entries client team start_date end_date (before ++ after)).
Proof.
  rewrite !get_all_time_entries_flat, !flat_map_app. split; [reflexivity|].
  intros Hf. simpl.
  rewrite (get_time_entries_for_user_failed _ _ _ _ _ Hf). reflexivity.
Qed.

Lemma get_all_time_entries_isolation_witness :
  get_all_time_entries quiet_client "team" 0 1 (["1"] ++ "7" :: ["2"]) =
  get_all_time_entries quiet_client "team" 0 1 (["1"] ++ ["2"]).
Proof.
  apply (proj2 (get_all_time_entries_isolation quiet_client "team" 0 1
                  ["1"] ["2"] "7")).
  exact I.
Defined.

(** ** The health endpoint *)

(** X8.  [health_check] reports "connected" exactly when the team request is
    answered with status 200, "disconnected" exactly when the request raises,
    and "error" for every other status, the other 2xx ones included. *)
Theorem health_check_status (client : AsyncClient) (TEAM_ID : string) :
  (clickup (health_check client TEAM_ID) = "connected" <->
   exists response,
     get_team client TEAM_ID = inr response /\ status_code response = 200) /\
  (clickup (health_check client TEAM_ID) = "disconnected" <->
   exists e, get_team client TEAM_ID = inl e) /\
  (clickup (health_check client TEAM_ID) = "error" <->
   exists response,
     get_team client TEAM_ID = inr response /\ status_code response <> 200).
Proof.
  unfold health_check; simpl.
  destruct (get_team client TEAM_ID) as [e|response]; simpl.
  - repeat split; try discriminate.
    + intros [r [H _]]. discriminate H.
    + intros _. exists e. reflexivity.
    + intros [r [H _]]. discriminate H.
  - destruct (Z.eqb_spec (status_code response) 200) as [Hs|Hs].
    + repeat split; try discriminate.
      * intros _. exists response. split; [reflexivity | exact Hs].
      * intros [e H]. discriminate H.
      * intros [r [H Hr]]. injection H as <-. contradiction.
    + repeat split; try discriminate.
      * intros [r [H Hr]]. injection H as <-. contradiction.
      * intros [e H]. discriminate H.
      * intros _. exists response. split; [reflexivity | exact Hs].
Qed.

(** X9.  On one and the same answer to the team request: when the health
    check reads "disconnected" the audit raises its HTTP 500; when it reads
    "connected" the audit raises the HTTP 500 exactly if the body is no JSON
    object, or the team document is not well shaped, or it has no member. *)
Theorem health_check_and_audit (client : AsyncClient) (TEAM_ID : string)
  (start_date_ms end_date_ms : Z) :
  (clickup (health_check client TEAM_ID) = "disconnected" ->
   run_audit client TEAM_ID start_date_ms end_date_ms =
   inl (HTTPException 500 "Failed to fetch users")) /\
  (clickup (health_check client TEAM_ID) = "connected" ->
   (run_audit client TEAM_ID start_date_ms end_date_ms =
    inl (HTTPException 500 "Failed to fetch users") <->
    forall response, get_team client TEAM_ID = inr response ->
      match body response with
      | Object p => well_shaped p = false \/ members_of p = []
      | _ => True
      end)).
Proof.
  assert (Hempty : get_all_users client TEAM_ID = [] ->
                   run_audit client TEAM_ID start_date_ms end_date_ms =
                   inl (HTTPException 500 "Failed to fetch users")).
  { unfold run_audit. intros ->. reflexivity. }
  assert (Hfull : run_audit client TEAM_ID start_date_ms end_date_ms =
                  inl (HTTPException 500 "Failed to fetch users") ->
                  get_all_users client TEAM_ID = []).
  { unfold run_audit.
    destruct (get_all_users client TEAM_ID) as [|u us]; [reflexivity|].
    intros H. exfalso. unfold build_report in H.
    match type of H with context [for_each process_entry ?l ?st] =>
      pose proof (for_each_not_http l st 500 "Failed to fetch users") as Hn;
      destruct (for_each process_entry l st) as [e|st'] end; simpl in H.
    - apply Hn. injection H as ->. reflexivity.
    - discriminate H. }
  split.
  - intros Hd. apply Hempty, get_all_users_failed.
    unfold health_check in Hd; simpl in Hd.
    destruct (get_team client TEAM_ID) as [e|response]; simpl in *;
      [exact I|].
    destruct (status_code response =? 200); discriminate Hd.
  - intros Hc. unfold health_check in Hc; simpl in Hc.
    destruct (get_team client TEAM_ID) as [e|response] eqn:Hg; simpl in Hc;
      [discriminate Hc|].
    destruct (Z.eqb_spec (status_code response) 200) as [Hs|Hs];
      [|discriminate Hc].
    split.
    + intros Hr r Hr'. injection Hr' as <-.
      apply Hfull in Hr.
      destruct (body response) as [| |p] eqn:Hb; try exact I.
      assert (Hret : call_returns (get_team client TEAM_ID) p).
      { exists response. rewrite Hg. repeat split; [lia | lia | exact Hb]. }
      rewrite (get_all_users_returns _ _ _ Hret) in Hr.
      destruct (well_shaped p); [right | left; reflexivity].
      destruct (members_of p); [reflexivity | discriminate Hr].
    + intros Hall. specialize (Hall response eq_refl).
      apply Hempty.
      destruct (body response) as [| |p] eqn:Hb.
      * apply get_all_users_failed. rewrite Hg. simpl. right. left. exact Hb.
      * apply get_all_users_failed. rewrite Hg. simpl. right. right. exact Hb.
      * assert (Hret : call_returns (get_team client TEAM_ID) p).
        { exists response. rewrite Hg. repeat split; [lia | lia | exact Hb]. }
        rewrite (get_all_users_returns _ _ _ Hret).
        destruct Hall as [-> | ->]; [reflexivity|].
        destruct (well_shaped p); reflexivity.
Qed.

Lemma health_check_and_audit_witness :
  run_audit failing_down_client "team" 0 1 =
  inl (HTTPException 500 "Failed to fetch users").
Proof.
  apply (proj1 (health_check_and_audit failing_down_client "team" 0 1)).
  reflexivity.
Defined.

(** ** The outcomes of the audit *)

Lemma valid_duration_fits (entry : RawEntry) :
  valid_duration entry = true ->
  int_of_duration (entry_duration entry) = inr (duration_of entry) /\
  get_verdict (duration_of entry) = inr (verdict_of (duration_of entry)).
Proof.
  unfold valid_duration, entry_error, duration_of. intros Hv.
  rewrite get_verdict_fits.
  destruct (entry_duration entry) as [[n|why]|]; simpl; try discriminate Hv.
  - destruct (fits_float n); [split; reflexivity | discriminate Hv].
  - split; reflexivity.
Qed.

Lemma process_entry_valid_state (st : LoopState) (entry : RawEntry) :
  valid_duration entry = true ->
  process_entry st entry =
  inr (next_state st entry (duration_of entry)
         (verdict_of (duration_of entry))).
Proof.
  intros Hv. destruct (valid_duration_fits entry Hv) as [Hn Hg].
  apply process_entry_eval; assumption.
Qed.

Lemma process_entry_valid (st : LoopState) (entry : RawEntry) :
  valid_duration entry = true ->
  exists st',
    process_entry st entry = inr st' /\
    tasks_data st' =
      dict_append (tasks_data st) (task_key_of entry) (time_entry_of entry).
Proof.
  intros Hv. eexists.
  split; [apply process_entry_valid_state, Hv | reflexivity].
Qed.

Lemma process_entry_invalid (st : LoopState) (entry : RawEntry)
  (e : Exception) :
  entry_error entry = Some e -> process_entry st entry = inl e.
Proof.
  unfold entry_error, process_entry.
  destruct (entry_duration entry) as [[n|why]|]; simpl;
    try discriminate.
  - rewrite get_verdict_fits. destruct (fits_float n); [discriminate|].
    intros H. injection H as <-. reflexivity.
  - intros H. injection H as <-. reflexivity.
Qed.

Lemma for_each_outcome (l : list RawEntry) (st : LoopState) :
  if forallb valid_duration l
  then exists st', for_each process_entry l st = inr st'
  else exists e, for_each process_entry l st = inl e.
Proof.
  revert st. induction l as [|x l IH]; intros st; simpl.
  - exists st. reflexivity.
  - destruct (valid_duration x) eqn:Hv; simpl.
    + destruct (process_entry_valid st x Hv) as [st1 [-> _]]. simpl. apply IH.
    + unfold valid_duration in Hv.
      destruct (entry_error x) as [e|] eqn:He; [|discriminate Hv].
      exists e. rewrite (process_entry_invalid st x e He). reflexivity.
Qed.

Lemma build_report_outcome (l : list RawEntry) :
  if forallb valid_duration l
  then exists r, build_report l = inr r
  else exists e, build_report l = inl e.
Proof.
  unfold build_report.
  pose proof (for_each_outcome l initial_state) as H.
  destruct (forallb valid_duration l).
  - destruct H as [st ->]. simpl. eexists. reflexivity.
  - destruct H as [e ->]. exists e. reflexivity.
Qed.

(** X10.  One bad duration aborts the whole audit.  When there are users and
    one of the fetched entries has a duration that [int()] rejects, or that
    is beyond the float range of the short-task test, the audit returns no
    report: it raises, and what it raises is not the HTTP exception of the
    missing users. *)
Theorem bad_duration_aborts_audit (client : AsyncClient) (TEAM_ID : string)
  (start_date_ms end_date_ms : Z) (entry : RawEntry) :
  get_all_users client TEAM_ID <> [] ->
  In entry (fetched_entries client TEAM_ID start_date_ms end_date_ms) ->
  (exists why, entry_duration entry = Some (DurRejected why)) \/
  (exists n, entry_duration entry = Some (DurInt n) /\
             60000 * FLOAT_OVERFLOW <= Z.abs n) ->
  exists e,
    run_audit client TEAM_ID start_date_ms end_date_ms = inl e /\
    forall code detail, e <> HTTPException code detail.
Proof.
  intros Hne Hin Hbad. unfold run_audit, fetched_entries in *.
  destruct (get_all_users client TEAM_ID) as [|u us]; [contradiction|].
  set (l := get_all_time_entries _ _ _ _ _) in *.
  assert (Hv : valid_duration entry = false).
  { unfold valid_duration, entry_error.
    destruct Hbad as [[why ->]|[n [-> Hn]]]; [reflexivity|].
    unfold fits_float.
    destruct (Z.ltb_spec (Z.abs n) (60000 * FLOAT_OVERFLOW));
      [lia | reflexivity]. }
  assert (Hf : forallb valid_duration l = false).
  { destruct (forallb valid_duration l) eqn:E; [|reflexivity].
    rewrite forallb_forall in E. rewrite (E entry Hin) in Hv.
    discriminate Hv. }
  pose proof (build_report_outcome l) as Ho. rewrite Hf in Ho.
  destruct Ho as [e He]. exists e. split; [exact He|].
  intros code detail ->. unfold build_report in He.
  pose proof (for_each_not_http l initial_state code detail) as Hn.
  destruct (for_each process_entry l initial_state) as [e'|st'];
    simpl in He; [|discriminate He].
  apply Hn. injection He as ->. reflexivity.
Qed.

Lemma bad_duration_aborts_audit_witness :
  exists e,
    run_audit bad_duration_client "team" 0 1 = inl e /\
    forall code detail, e <> HTTPException code detail.
Proof.
  apply (bad_duration_aborts_audit bad_duration_client "team" 0 1
           (mkRawEntry None None (Some (DurRejected WrongType)))).
  - vm_compute. discriminate.
  - vm_compute. right. left. reflexivity.
  - left. exists WrongType. reflexivity.
Defined.

(** ** The dict of the entry loop *)

Lemma for_each_valid (l : list RawEntry) (st st' : LoopState) :
  for_each process_entry l st = inr st' -> forallb valid_duration l = true.
Proof.
  intros H. pose proof (for_each_outcome l st) as Ho.
  destruct (forallb valid_duration l); [reflexivity|].
  destruct Ho as [e He]. congruence.
Qed.

Lemma for_each_tasks_data (l : list RawEntry) (st st' : LoopState) :
  for_each process_entry l st = inr st' ->
  tasks_data st' = group_entries (tasks_data st) l.
Proof.
  unfold group_entries.
  revert st. induction l as [|x l IH]; intros st; simpl.
  - intros H. injection H as <-. reflexivity.
  - destruct (process_entry st x) as [ex|st1] eqn:E; simpl; [discriminate|].
    intros H. rewrite (IH _ H). f_equal.
    destruct (valid_duration x) eqn:Hv.
    + destruct (process_entry_valid st x Hv) as [st2 [E2 Hd]].
      rewrite E in E2. injection E2 as <-. exact Hd.
    + unfold valid_duration in Hv.
      destruct (entry_error x) as [ex|] eqn:He; [|discriminate Hv].
      rewrite (process_entry_invalid st x ex He) in E. discriminate E.
Qed.

(** Reading the dict after an append. *)
Lemma dict_get_append (d : TasksData) (k k' : TaskKey) (e : TimeEntry) :
  dict_get (dict_append d k e) k' =
  if key_eqb k k' then (dict_get d k' ++ [e])%list else dict_get d k'.
Proof.
  induction d as [|[k0 es] d IH]; simpl.
  - destruct (key_eqb k k'); reflexivity.
  - destruct (key_eqb k0 k) eqn:E0; simpl.
    + apply key_eqb_eq in E0. subst k0.
      destruct (key_eqb k k'); reflexivity.
    + rewrite IH. destruct (key_eqb k k') eqn:E1; [|reflexivity].
      apply key_eqb_eq in E1. subst k'. rewrite E0. reflexivity.
Qed.

Lemma dict_get_group_entries (l : list RawEntry) (d : TasksData)
  (k : TaskKey) :
  dict_get (group_entries d l) k = (dict_get d k ++ bucket k l)%list.
Proof.
  unfold group_entries, bucket.
  revert d. induction l as [|x l IH]; intros d; simpl.
  - rewrite app_nil_r. reflexivity.
  - rewrite IH, dict_get_append.
    destruct (key_eqb (task_key_of x) k); simpl; [|reflexivity].
    rewrite <- app_assoc. reflexivity.
Qed.

Lemma unseen_not_in (K : list TaskKey) (k : TaskKey) :
  unseen K k = true -> ~ In k K.
Proof.
  unfold unseen. intros Hu Hin.
  assert (existsb (fun k' => key_eqb k' k) K = true).
  { apply existsb_exists. exists k. split; [exact Hin | apply key_eqb_refl]. }
  rewrite H in Hu. discriminate Hu.
Qed.

Lemma dict_append_nodup (d : TasksData) (k : TaskKey) (e : TimeEntry) :
  NoDup (map fst d) -> NoDup (map fst (dict_append d k e)).
Proof.
  intros Hn. rewrite dict_append_keys.
  destruct (unseen (map fst d) k) eqn:Hu; [|exact Hn].
  apply NoDup_app; [exact Hn | repeat constructor; intros [] |].
  intros a Ha [<-|[]]. exact (unseen_not_in _ _ Hu Ha).
Qed.

Lemma dict_append_nonempty (d : TasksData) (k : TaskKey) (e : TimeEntry) :
  Forall (fun x => snd x <> []) d ->
  Forall (fun x => snd x <> []) (dict_append d k e).
Proof.
  induction 1 as [|[k0 es] d Hx Hd IH]; simpl.
  - repeat constructor. discriminate.
  - destruct (key_eqb k0 k); constructor; try assumption.
    simpl. unfold Py.append. destruct es; discriminate.
Qed.

Lemma group_entries_wellformed (l : list RawEntry) (d : TasksData) :
  NoDup (map fst d) -> Forall (fun x => snd x <> []) d ->
  NoDup (map fst (group_entries d l)) /\
  Forall (fun x => snd x <> []) (group_entries d l).
Proof.
  unfold group_entries.
  revert d. induction l as [|x l IH]; intros d Hn Hf; simpl; [tauto|].
  apply IH; [apply dict_append_nodup, Hn | apply dict_append_nonempty, Hf].
Qed.

Lemma dict_get_in (d : TasksData) (k : TaskKey) (es : list TimeEntry) :
  NoDup (map fst d) -> In (k, es) d -> dict_get d k = es.
Proof.
  induction d as [|[k0 es0] d IH]; simpl; [contradiction|].
  intros Hn [Heq|Hin].
  - injection Heq as -> ->. rewrite key_eqb_refl. reflexivity.
  - apply NoDup_cons_iff in Hn as [Hnot Hn].
    destruct (key_eqb k0 k) eqn:E; [|apply IH; assumption].
    apply key_eqb_eq in E. subst k0. exfalso. apply Hnot.
    apply in_map_iff. exists (k, es). split; [reflexivity | exact Hin].
Qed.

Lemma dict_get_nonempty_in (d : TasksData) (k : TaskKey) :
  dict_get d k <> [] -> In (k, dict_get d k) d.
Proof.
  induction d as [|[k0 es0] d IH]; simpl; [intros H; contradiction|].
  destruct (key_eqb k0 k) eqn:E.
  - apply key_eqb_eq in E. subst k0. intros _. left. reflexivity.
  - intros H. right. apply IH, H.
Qed.

(** ** The groups of the report *)

Lemma run_audit_fetched (client : AsyncClient) (TEAM_ID : string)
  (start_date_ms end_date_ms : Z) (r : AuditResponse) :
  run_audit client TEAM_ID start_date_ms end_date_ms = inr r ->
  build_report (fetched_entries client TEAM_ID start_date_ms end_date_ms)
  = inr r.
Proof.
  unfold run_audit, fetched_entries.
  destruct (get_all_users client TEAM_ID); [discriminate|]. trivial.
Qed.

Lemma build_report_groups (l : list RawEntry) (r : AuditResponse) :
  build_report l = inr r ->
  tasks r = task_groups (sorted_tasks (group_entries [] l)).
Proof.
  intros H. apply build_report_tasks in H as [st [Hl [_ Ht]]].
  rewrite Ht, (for_each_tasks_data _ _ _ Hl). reflexivity.
Qed.

Lemma in_task_groups_key (d : TasksData) (g : TaskGroup) :
  In g (task_groups (sorted_tasks d)) <->
  exists es, In (group_key g, es) d /\
    status g = get_task_status es /\
    entries g = Py.sorted entry_sort_key es.
Proof.
  unfold task_groups, group_key. split.
  - intros Hin. apply in_map_iff in Hin as [[[n i] es] [<- Hin]].
    exists es. repeat split.
    eapply Permutation_in; [apply sorted_perm | exact Hin].
  - intros [es [Hin [Hs He]]]. apply in_map_iff.
    exists (group_key g, es). split.
    + destruct g as [n i st en]. simpl in *. subst. reflexivity.
    + eapply Permutation_in; [apply Permutation_sym, sorted_perm | exact Hin].
Qed.

Lemma entry_sort_key_le (e : TimeEntry) : (entry_sort_key e <= 2)%nat.
Proof.
  unfold entry_sort_key.
  destruct (fraud_test (verdict e)); [lia|].
  destruct (potential_test (verdict e)); lia.
Qed.

(** The entries of a group of the report, before the sort. *)
Lemma report_group_bucket (l : list RawEntry) (r : AuditResponse)
  (g : TaskGroup) :
  build_report l = inr r -> In g (tasks r) ->
  entries g = Py.sorted entry_sort_key (bucket (group_key g) l) /\
  status g = get_task_status (bucket (group_key g) l) /\
  bucket (group_key g) l <> [].
Proof.
  intros Hr Hg. rewrite (build_report_groups _ _ Hr) in Hg.
  apply in_task_groups_key in Hg as [es [Hin [Hs He]]].
  destruct (group_entries_wellformed l [] (NoDup_nil _) (Forall_nil _))
    as [Hn Hf].
  pose proof (dict_get_in _ _ _ Hn Hin) as Hget.
  rewrite dict_get_group_entries in Hget. simpl in Hget.
  rewrite Hget. repeat split; try assumption.
  rewrite Forall_forall in Hf. exact (Hf _ Hin).
Qed.

Lemma task_groups_keys (d : TasksData) :
  map group_key (task_groups d) = map fst d.
Proof.
  induction d as [|[[n i] es] d IH]; simpl; [reflexivity|].
  rewrite IH. reflexivity.
Qed.

(** X11.  In a report, no two groups have the same (task name, task id) pair
    and no group is empty. *)
Theorem report_groups_distinct (client : AsyncClient) (TEAM_ID : string)
  (start_date_ms end_date_ms : Z) (r : AuditResponse) :
  run_audit client TEAM_ID start_date_ms end_date_ms = inr r ->
  NoDup (map group_key (tasks r)) /\
  Forall (fun g => entries g <> []) (tasks r).
Proof.
  intros Hr. apply run_audit_fetched in Hr.
  set (l := fetched_entries _ _ _ _) in *.
  split.
  - rewrite (build_report_groups _ _ Hr).
    destruct (group_entries_wellformed l [] (NoDup_nil _) (Forall_nil _))
      as [Hn _].
    rewrite task_groups_keys.
    eapply Permutation_NoDup; [|exact Hn].
    apply Permutation_map, Permutation_sym, sorted_perm.
  - apply Forall_forall. intros g Hg.
    destruct (report_group_bucket _ _ _ Hr Hg) as [He [_ Hne]].
    rewrite He. intros Hnil. apply Hne.
    apply length_zero_iff_nil.
    rewrite <- (sorted_length entry_sort_key), Hnil. reflexivity.
Qed.

Lemma report_groups_distinct_witness :
  NoDup (map group_key (tasks busy_report)).
Proof.
  exact (proj1 (report_groups_distinct busy_client "team" 0 1 busy_report
                  busy_report_ok)).
Defined.

(** X12.  Grouping loses and mixes nothing.  The entries of a group of the
    report are the fetched entries of that (task name, task id) pair: first
    those of the fraud tier, then those of the potential tier, then the
    clean ones, each tier in fetch order.  And every fetched entry is in the
    group of its own pair, an entry without task in the group
    ("No Task", "N/A"). *)
Theorem report_group_entries (client : AsyncClient) (TEAM_ID : string)
  (start_date_ms end_date_ms : Z) (r : AuditResponse) :
  run_audit client TEAM_ID start_date_ms end_date_ms = inr r ->
  let l := fetched_entries client TEAM_ID start_date_ms end_date_ms in
  (forall g, In g (tasks r) ->
     let b := bucket (group_key g) l in
     entries g =
     (with_key entry_sort_key 0 b ++ with_key entry_sort_key 1 b ++
      with_key entry_sort_key 2 b)%list) /\
  (forall entry, In entry l ->
     exists g, In g (tasks r) /\ group_key g = task_key_of entry /\
               In (time_entry_of entry) (entries g)) /\
  (forall entry, In entry l -> entry_task entry = None ->
     task_key_of entry = ("No Task", "N/A")).
Proof.
  intros Hr l. apply run_audit_fetched in Hr. fold l in Hr.
  split; [|split].
  - intros g Hg b.
    destruct (report_group_bucket _ _ _ Hr Hg) as [He _].
    rewrite He. apply sorted_tiers, entry_sort_key_le.
  - intros entry Hin.
    remember (task_key_of entry) as k eqn:Hk.
    assert (Hb : In (time_entry_of entry) (bucket k l)).
    { unfold bucket. apply in_map, filter_In.
      split; [exact Hin | rewrite Hk; apply key_eqb_refl]. }
    assert (Hd : In (k, bucket k l) (group_entries [] l)).
    { pose proof (dict_get_group_entries l [] k) as Hget. simpl in Hget.
      rewrite <- Hget. apply dict_get_nonempty_in.
      rewrite Hget. intros Hnil. rewrite Hnil in Hb. exact Hb. }
    destruct k as [n i].
    exists {| task_name := n; task_id := i;
              status := get_task_status (bucket (n, i) l);
              entries := Py.sorted entry_sort_key (bucket (n, i) l) |}.
    split; [|split].
    + rewrite (build_report_groups _ _ Hr). apply in_task_groups_key.
      exists (bucket (n, i) l). repeat split. exact Hd.
    + reflexivity.
    + simpl. eapply Permutation_in;
        [apply Permutation_sym, sorted_perm | exact Hb].
  - intros entry _ Ht. unfold task_key_of. rewrite Ht. reflexivity.
Qed.

Lemma report_group_entries_witness :
  exists g, In g (tasks busy_report) /\
            group_key g = ("No Task", "N/A") /\
            In (time_entry_of (entry_of None 301000)) (entries g).
Proof.
  apply (proj1 (proj2 (report_group_entries busy_client "team" 0 1
                         busy_report busy_report_ok))
           (entry_of None 301000)).
  right. right. left. reflexivity.
Defined.

(** X13.  Every entry of a report carries the duration string and the
    verdict of its own milliseconds, and its severity is the one the
    classifier gives those milliseconds. *)
Theorem report_entries_consistent (client : AsyncClient) (TEAM_ID : string)
  (start_date_ms end_date_ms : Z) (r : AuditResponse) (g : TaskGroup)
  (e : TimeEntry) :
  run_audit client TEAM_ID start_date_ms end_date_ms = inr r ->
  In g (tasks r) -> In e (entries g) ->
  duration e = ms_to_duration_str (duration_ms e) /\
  get_verdict (duration_ms e) = inr (verdict e) /\
  classify (duration_ms e) = inr (severity_of_entry e).
Proof.
  intros Hr Hg He. apply run_audit_fetched in Hr.
  destruct (report_group_bucket _ _ _ Hr Hg) as [Hs _].
  rewrite Hs in He.
  apply (Permutation_in _ (sorted_perm entry_sort_key _)) in He.
  unfold bucket in He. apply in_map_iff in He as [entry [<- Hin]].
  apply filter_In in Hin as [Hin _].
  assert (Hv : valid_duration entry = true).
  { pose proof (build_report_outcome
                  (fetched_entries client TEAM_ID start_date_ms end_date_ms))
      as Ho.
    destruct (forallb valid_duration _) eqn:Ef.
    - rewrite forallb_forall in Ef. apply Ef, Hin.
    - destruct Ho as [ex Hex]. congruence. }
  destruct (valid_duration_fits entry Hv) as [_ Hget].
  split; [reflexivity|]. split; [exact Hget|].
  unfold classify. cbn [duration_ms time_entry_of]. rewrite Hget.
  reflexivity.
Qed.

Lemma report_entries_consistent_witness :
  Forall (fun e => get_verdict (duration_ms e) = inr (verdict e))
         (entries busy_group).
Proof.
  apply Forall_forall. intros e He.
  apply (report_entries_consistent busy_client "team" 0 1 busy_report
           busy_group e busy_report_ok).
  - vm_compute. left. reflexivity.
  - exact He.
Defined.

Lemma key_sorted_map {A B : Type} (key : B -> nat) (f : A -> B)
  (l : list A) :
  key_sorted (fun x => key (f x)) l -> key_sorted key (map f l).
Proof.
  unfold key_sorted.
  induction 1 as [|x l Hs IH Hall]; simpl; constructor; [exact IH|].
  apply Forall_map. exact Hall.
Qed.

(** X14.  A report is in tier order throughout: the statuses of its groups
    never go from a later tier back to an earlier one, and neither do the
    entries inside a group, so that sorting the entries of a group again
    changes nothing. *)
Theorem report_in_tier_order (client : AsyncClient) (TEAM_ID : string)
  (start_date_ms end_date_ms : Z) (r : AuditResponse) :
  run_audit client TEAM_ID start_date_ms end_date_ms = inr r ->
  key_sorted status_tier (tasks r) /\
  (forall g, In g (tasks r) ->
     key_sorted entry_sort_key (entries g) /\
     Py.sorted entry_sort_key (entries g) = entries g).
Proof.
  intros Hr. apply run_audit_fetched in Hr. split.
  - rewrite (build_report_groups _ _ Hr). unfold task_groups.
    apply key_sorted_map.
    assert (Hk : forall x : TaskKey * list TimeEntry,
               status_tier
                 (let '(task_key, entries) := x in
                  {| task_name := fst task_key; task_id := snd task_key;
                     status := get_task_status entries;
                     entries := Py.sorted entry_sort_key entries |}) =
               task_sort_key x).
    { intros [k es]. reflexivity. }
    unfold key_sorted, key_le.
    eapply StronglySorted_ind with
      (P := fun l => StronglySorted _ l);
      [constructor | | apply (sorted_key_sorted task_sort_key)].
    intros a l Hs IH Hall. constructor; [exact IH|].
    eapply Forall_impl; [|exact Hall].
    intros b Hab. unfold key_le in Hab. rewrite !Hk. exact Hab.
  - intros g Hg.
    destruct (report_group_bucket _ _ _ Hr Hg) as [He _].
    rewrite He. split; [apply sorted_key_sorted | apply sorted_idempotent].
Qed.

Lemma report_in_tier_order_witness :
  key_sorted status_tier (tasks busy_report).
Proof.
  exact (proj1 (report_in_tier_order busy_client "team" 0 1 busy_report
                  busy_report_ok)).
Defined.

(** ** The summary, by the milliseconds *)

Lemma tests_of_verdict (n : Z) :
  fraud_test (verdict_of n) = is_fraud_ms n /\
  potential_test (verdict_of n) = is_potential_ms n.
Proof.
  pose proof (severity_of_ms n) as Hc.
  unfold severity_of, severity_of_verdict in Hc.
  assert (Hx : fraud_test (verdict_of n) = true ->
               potential_test (verdict_of n) = false).
  { unfold fraud_test, potential_test. intros H.
    apply andb_true_iff in H as [_ H]. apply negb_true_iff in H. exact H. }
  assert (Hy : is_fraud_ms n = true -> is_potential_ms n = false).
  { unfold is_fraud_ms, is_potential_ms. intros H.
    apply andb_true_iff in H as [H _]. apply Z.leb_le in H.
    apply Z.ltb_ge. exact H. }
  destruct (fraud_test (verdict_of n)), (potential_test (verdict_of n)),
    (is_potential_ms n), (is_fraud_ms n);
    try discriminate Hc; try (split; reflexivity);
    try (specialize (Hx eq_refl); discriminate Hx);
    try (specialize (Hy eq_refl); discriminate Hy).
Qed.

Lemma is_clean_ms_rest (n : Z) :
  is_clean_ms n = negb (is_fraud_ms n) && negb (is_potential_ms n).
Proof.
  unfold is_clean_ms, is_fraud_ms, is_potential_ms.
  destruct (Z.leb_spec 300000 n), (Z.ltb_spec n 300000),
    (Z.ltb_spec (n mod 60000) 1000), (Z.leb_spec 1000 (n mod 60000));
    simpl; try reflexivity; lia.
Qed.

Lemma process_entry_counts (st st' : LoopState) (entry : RawEntry) :
  process_entry st entry = inr st' ->
  fraud_count st' =
    (fraud_count st + count_if (fun e => is_fraud_ms (duration_of e)) [entry])%nat /\
  potential_count st' =
    (potential_count st +
     count_if (fun e => is_potential_ms (duration_of e)) [entry])%nat /\
  clean_count st' =
    (clean_count st + count_if (fun e => is_clean_ms (duration_of e)) [entry])%nat.
Proof.
  intros H. destruct (valid_duration entry) eqn:Hv.
  - rewrite (process_entry_valid_state st entry Hv) in H.
    injection H as <-. unfold next_state, count_if.
    cbn [fraud_count potential_count clean_count filter].
    rewrite is_clean_ms_rest.
    destruct (tests_of_verdict (duration_of entry)) as [-> ->].
    destruct (is_fraud_ms (duration_of entry)) eqn:Ef,
             (is_potential_ms (duration_of entry)) eqn:Ep;
      try (exfalso; unfold is_fraud_ms, is_potential_ms in *;
           apply andb_true_iff in Ef as [Ef _];
           apply Z.leb_le in Ef; apply Z.ltb_lt in Ep; lia);
      simpl; repeat split; lia.
  - unfold valid_duration in Hv.
    destruct (entry_error entry) as [ex|] eqn:He; [|discriminate Hv].
    rewrite (process_entry_invalid st entry ex He) in H. discriminate H.
Qed.

Lemma for_each_counts (l : list RawEntry) (st st' : LoopState) :
  for_each process_entry l st = inr st' ->
  fraud_count st' =
    (fraud_count st + count_if (fun e => is_fraud_ms (duration_of e)) l)%nat /\
  potential_count st' =
    (potential_count st +
     count_if (fun e => is_potential_ms (duration_of e)) l)%nat /\
  clean_count st' =
    (clean_count st + count_if (fun e => is_clean_ms (duration_of e)) l)%nat.
Proof.
  revert st. induction l as [|x l IH]; intros st; simpl.
  - intros H. injection H as <-. unfold count_if; simpl. lia.
  - destruct (process_entry st x) as [ex|st1] eqn:E; simpl; [discriminate|].
    intros H. destruct (IH _ H) as [Hf [Hp Hc]].
    destruct (process_entry_counts _ _ _ E) as [Hf1 [Hp1 Hc1]].
    unfold count_if in *. simpl in *.
    destruct (is_fraud_ms (duration_of x)),
             (is_potential_ms (duration_of x)),
             (is_clean_ms (duration_of x)); simpl in *; lia.
Qed.

Lemma build_report_summary (l : list RawEntry) (r : AuditResponse) :
  build_report l = inr r ->
  summary r =
  {| total := List.length l;
     fraud := count_if (fun e => is_fraud_ms (duration_of e)) l;
     potential := count_if (fun e => is_potential_ms (duration_of e)) l;
     clean := count_if (fun e => is_clean_ms (duration_of e)) l |}.
Proof.
  intros H. apply build_report_tasks in H as [st [Hl [Hs _]]].
  destruct (for_each_counts _ _ _ Hl) as [Hf [Hp Hc]]. simpl in *.
  rewrite Hs, Hf, Hp, Hc. reflexivity.
Qed.

Lemma count_if_le {A : Type} (p q : A -> bool) (l : list A) :
  (forall x, p x = true -> q x = true) ->
  (count_if p l <= count_if q l)%nat.
Proof.
  intros Hpq. unfold count_if.
  induction l as [|x l IH]; simpl; [lia|].
  destruct (p x) eqn:Hp.
  - rewrite (Hpq x Hp). simpl. lia.
  - destruct (q x); simpl; lia.
Qed.

(** X15.  The counts of the summary, by the milliseconds of the fetched
    entries (an absent duration counting as 0): [potential] is the number of
    entries below 300000 ms, [fraud] the number of entries of at least
    300000 ms that are less than a second past a whole minute, [clean] the
    number of the others; so every entry without a duration is counted as
    potential. *)
Theorem summary_by_milliseconds (client : AsyncClient) (TEAM_ID : string)
  (start_date_ms end_date_ms : Z) (r : AuditResponse) :
  run_audit client TEAM_ID start_date_ms end_date_ms = inr r ->
  let l := fetched_entries client TEAM_ID start_date_ms end_date_ms in
  potential (summary r) = count_if (fun e => duration_of e <? 300000) l /\
  fraud (summary r) =
    count_if (fun e => (300000 <=? duration_of e) &&
                       (duration_of e mod 60000 <? 1000)) l /\
  clean (summary r) =
    count_if (fun e => (300000 <=? duration_of e) &&
                       (1000 <=? duration_of e mod 60000)) l /\
  (count_if (fun e => match entry_duration e with
                      | None => true
                      | Some _ => false
                      end) l <= potential (summary r))%nat.
Proof.
  intros Hr l. apply run_audit_fetched in Hr. fold l in Hr.
  rewrite (build_report_summary _ _ Hr). simpl.
  repeat split. apply count_if_le.
  intros x. unfold duration_of.
  destruct (entry_duration x); [discriminate | reflexivity].
Qed.

Lemma summary_by_milliseconds_witness :
  potential (summary busy_report) = 2%nat /\
  fraud (summary busy_report) = 1%nat.
Proof.
  destruct (summary_by_milliseconds busy_client "team" 0 1 busy_report
              busy_report_ok) as [Hp [Hf _]].
  rewrite Hp, Hf. split; reflexivity.
Defined.

Lemma count_if_perm {A : Type} (p : A -> bool) (l l' : list A) :
  Permutation l l' -> count_if p l = count_if p l'.
Proof.
  unfold count_if.
  induction 1 as [|x l l' _ IH|x y l|l l' l'' _ IH1 _ IH2]; simpl.
  - reflexivity.
  - destruct (p x); simpl; rewrite IH; reflexivity.
  - destruct (p x), (p y); reflexivity.
  - rewrite IH1. exact IH2.
Qed.

Lemma forallb_perm {A : Type} (p : A -> bool) (l l' : list A) :
  Permutation l l' -> forallb p l = true -> forallb p l' = true.
Proof.
  intros Hp H. apply forallb_forall. intros x Hx.
  rewrite forallb_forall in H. apply H.
  eapply Permutation_in; [apply Permutation_sym, Hp | exact Hx].
Qed.

(** X16.  The summary does not depend on the order in which the entries are
    fetched: from the same entries in another order the report is built as
    well, and its summary is the same. *)
Theorem summary_order_independent (l l' : list RawEntry) (r : AuditResponse) :
  Permutation l l' ->
  build_report l = inr r ->
  exists r', build_report l' = inr r' /\ summary r' = summary r.
Proof.
  intros Hp Hr.
  assert (Hv : forallb valid_duration l = true).
  { pose proof (build_report_outcome l) as Ho.
    destruct (forallb valid_duration l); [reflexivity|].
    destruct Ho as [ex Hex]. congruence. }
  pose proof (build_report_outcome l') as Ho'.
  rewrite (forallb_perm _ _ _ Hp Hv) in Ho'. destruct Ho' as [r' Hr'].
  exists r'. split; [exact Hr'|].
  rewrite (build_report_summary _ _ Hr), (build_report_summary _ _ Hr').
  rewrite (Permutation_length Hp).
  rewrite !(count_if_perm _ _ _ Hp). reflexivity.
Qed.

Lemma summary_order_independent_witness :
  exists r', build_report (rev busy_entries) = inr r' /\
             summary r' = summary (report_of (build_report busy_entries)).
Proof.
  apply (summary_order_independent busy_entries (rev busy_entries)).
  - apply Permutation_rev.
  - reflexivity.
Defined.

(** X17.  The total of the summary is the sum, over the users of the team,
    of the number of entries the fetch of each user returned; an entry
    returned for two users is counted twice. *)
Theorem total_per_user (client : AsyncClient) (TEAM_ID : string)
  (start_date_ms end_date_ms : Z) (r : AuditResponse) :
  run_audit client TEAM_ID start_date_ms end_date_ms = inr r ->
  total (summary r) =
  list_sum
    (map (fun u =>
            List.length
              (get_time_entries_for_user client TEAM_ID start_date_ms
                 end_date_ms (id u)))
         (get_all_users client TEAM_ID)).
Proof.
  intros Hr. apply run_audit_fetched in Hr.
  rewrite (build_report_summary _ _ Hr). simpl.
  unfold fetched_entries.
  rewrite get_all_time_entries_flat, length_flat_map, map_map. reflexivity.
Qed.

Lemma total_per_user_witness : total (summary busy_report) = 4%nat.
Proof.
  rewrite (total_per_user busy_client "team" 0 1 busy_report busy_report_ok).
  reflexivity.
Defined.

(** ** The sort is determined *)

Section SortedUnique.
Context {A : Type} (key : A -> nat).

Lemma with_key_head (x : A) (l : list A) :
  with_key key (key x) (x :: l) = x :: with_key key (key x) l.
Proof. unfold with_key; simpl. rewrite Nat.eqb_refl. reflexivity. Qed.

Lemma with_key_skip (k : nat) (x : A) (l : list A) :
  key x <> k -> with_key key k (x :: l) = with_key key k l.
Proof.
  intros H. unfold with_key; simpl.
  destruct (Nat.eqb_spec (key x) k); [contradiction | reflexivity].
Qed.

Lemma with_key_below (x y : A) (l : list A) :
  Forall (key_le key x) l -> (key y < key x)%nat ->
  with_key key (key y) (x :: l) = [].
Proof.
  intros Hall Hlt. rewrite with_key_skip by lia.
  apply with_key_none. eapply Forall_impl; [|exact Hall].
  unfold key_le; intros; lia.
Qed.

(** Two lists in key order with the same elements of every key, in the same
    order, are the same list. *)
Lemma key_sorted_determined (l1 l2 : list A) :
  key_sorted key l1 -> key_sorted key l2 ->
  (forall k, with_key key k l1 = with_key key k l2) ->
  l1 = l2.
Proof.
  unfold key_sorted. intros H1. revert l2.
  induction H1 as [|x t1 Hs1 IH Hall1]; intros l2 H2 Heq.
  - destruct l2 as [|y t2]; [reflexivity|].
    specialize (Heq (key y)). rewrite with_key_head in Heq. discriminate Heq.
  - destruct H2 as [|y t2 Hs2 Hall2].
    + specialize (Heq (key x)). rewrite with_key_head in Heq.
      discriminate Heq.
    + assert (Hk : key x = key y).
      { destruct (Nat.lt_trichotomy (key x) (key y)) as [Hlt|[He|Hgt]];
          [|exact He|].
        - pose proof (Heq (key x)) as Hx.
          rewrite with_key_head, (with_key_below y x t2 Hall2 Hlt) in Hx.
          discriminate Hx.
        - pose proof (Heq (key y)) as Hy.
          rewrite (with_key_head y), (with_key_below x y t1 Hall1 Hgt) in Hy.
          discriminate Hy. }
      pose proof (Heq (key x)) as Hx.
      rewrite with_key_head, Hk, with_key_head in Hx.
      injection Hx as Hxy Htl. subst y.
      f_equal. apply IH; [exact Hs2|].
      intros k. destruct (Nat.eq_dec (key x) k) as [<-|Hne].
      * exact Htl.
      * specialize (Heq k). rewrite !with_key_skip in Heq by exact Hne.
        exact Heq.
Qed.

(** X18.  The result of the sort is determined by two facts: the keys never
    decrease, and the elements of each key are those of the input in their
    input order.  Any list with these two properties is the sorted list, so
    the order of the groups and of the entries of a report does not depend
    on how the stable sort is carried out. *)
Theorem sorted_unique (l l' : list A) :
  key_sorted key l' ->
  (forall k, with_key key k l' = with_key key k l) ->
  l' = Py.sorted key l.
Proof.
  intros Hs Heq. apply key_sorted_determined.
  - exact Hs.
  - apply sorted_key_sorted.
  - intros k. rewrite Heq, with_key_sorted. reflexivity.
Qed.
End SortedUnique.

Lemma sorted_unique_witness :
  [stored_entry 600000; stored_entry 3600000; stored_entry 120000] =
  Py.sorted entry_sort_key
    [stored_entry 600000; stored_entry 120000; stored_entry 3600000].
Proof.
  apply sorted_unique.
  - repeat constructor.
  - intros [|[|[|k]]]; reflexivity.
Defined.

(** ** Reading a duration string back *)

Lemma string_of_uint_digits (d : Decimal.uint) :
  all_digits (NilEmpty.string_of_uint d) = true.
Proof. induction d; simpl; auto. Qed.

Lemma str_of_int_digits (n : Z) :
  0 <= n -> all_digits (Py.str_of_int n) = true.
Proof.
  intros Hn. unfold Py.str_of_int.
  destruct n as [|p|p]; [reflexivity | | lia].
  simpl. unfold NilZero.string_of_uint.
  destruct (Pos.to_uint p) eqn:E; try reflexivity;
    rewrite <- E; apply string_of_uint_digits.
Qed.

Lemma str_of_int_inj (n n' : Z) :
  Py.str_of_int n = Py.str_of_int n' -> n = n'.
Proof.
  unfold Py.str_of_int. intros H.
  assert (Hnn : forall z, Z.to_int z <> Decimal.Pos Decimal.Nil /\
                          Z.to_int z <> Decimal.Neg Decimal.Nil).
  { intros [|p|p]; simpl; split; try discriminate;
      intros E; injection E as E; exact (Unsigned.to_uint_nonnil p E). }
  apply DecimalZ.to_int_inj.
  assert (Hs : Some (Z.to_int n) = Some (Z.to_int n')).
  { rewrite <- (NilZero.isi (Z.to_int n)) by apply Hnn.
    rewrite <- (NilZero.isi (Z.to_int n')) by apply Hnn.
    rewrite H. reflexivity. }
  injection Hs as Hs. exact Hs.
Qed.

(** A run of digits followed by another character is read in one way. *)
Lemma digits_split (a b : string) (c c' : ascii) (u u' : string) :
  all_digits a = true -> all_digits b = true ->
  is_digit c = false -> is_digit c' = false ->
  a ++ String c u = b ++ String c' u' ->
  a = b /\ c = c' /\ u = u'.
Proof.
  revert b. induction a as [|x a IH]; intros [|y b] Ha Hb Hc Hc' H;
    simpl in *.
  - injection H as -> ->. repeat split.
  - injection H as -> _. apply andb_true_iff in Hb as [Hb _]. congruence.
  - injection H as -> _. apply andb_true_iff in Ha as [Ha _]. congruence.
  - injection H as -> H.
    apply andb_true_iff in Ha as [_ Ha]. apply andb_true_iff in Hb as [_ Hb].
    destruct (IH b Ha Hb Hc Hc' H) as [-> [-> ->]]. repeat split.
Qed.

Ltac peel H :=
  let Hn := fresh "Hn" in
  let Hc := fresh "Hc" in
  apply digits_split in H;
  [ destruct H as [Hn [Hc H]]; apply str_of_int_inj in Hn;
    try discriminate Hc; clear Hc
  | now apply str_of_int_digits | now apply str_of_int_digits
  | reflexivity | reflexivity ].

Lemma hms_str_inj (h m s h' m' s' : Z) :
  0 <= h -> 0 <= m -> 0 <= s -> 0 <= h' -> 0 <= m' -> 0 <= s' ->
  hms_str h m s = hms_str h' m' s' ->
  h = h' /\ m = m' /\ s = s'.
Proof.
  intros Hh Hm Hs Hh' Hm' Hs' H. unfold hms_str in H.
  destruct (Z.eqb_spec h 0), (Z.eqb_spec m 0),
           (Z.eqb_spec h' 0), (Z.eqb_spec m' 0);
    rewrite ?append_assoc in H; cbn [append] in H;
    peel H;
    try (injection H as H; peel H);
    try (injection H as H; peel H);
    repeat split; congruence.
Qed.

Lemma ms_to_duration_str_hms (d : Z) :
  0 <= d ->
  ms_to_duration_str d =
  hms_str (d / 3600000) ((d / 60000) mod 60) ((d / 1000) mod 60) /\
  d / 1000 =
  3600 * (d / 3600000) + 60 * ((d / 60000) mod 60) + (d / 1000) mod 60.
Proof.
  intros Hd. destruct (hms_decomposition d) as [Hh Hm]. split.
  - unfold ms_to_duration_str, hms_str. rewrite Hh, Hm.
    assert (0 <= d / 3600000) by (apply Z.div_pos; lia).
    assert (0 <= (d / 60000) mod 60) by (apply Z.mod_pos_bound; lia).
    destruct (Z.ltb_spec 0 (d / 3600000)), (Z.eqb_spec (d / 3600000) 0);
      try lia;
      destruct (Z.ltb_spec 0 ((d / 60000) mod 60)),
               (Z.eqb_spec ((d / 60000) mod 60) 0);
      try lia; unfold Py.append, Py.join; simpl;
      rewrite ?append_assoc; reflexivity.
  - rewrite <- Hh, <- Hm.
    pose proof (Z.div_mod (d / 1000) 3600 ltac:(lia)) as E1.
    pose proof (Z.div_mod ((d / 1000) mod 3600) 60 ltac:(lia)) as E2.
    rewrite Z.mod_mod_divide in E2 by (exists 60; reflexivity).
    lia.
Qed.

(** X19.  On non-negative durations the string tells the whole seconds: two
    durations are written the same exactly when they have the same number of
    whole seconds. *)
Theorem ms_to_duration_str_whole_seconds (d1 d2 : Z) :
  0 <= d1 -> 0 <= d2 ->
  (ms_to_duration_str d1 = ms_to_duration_str d2 <-> d1 / 1000 = d2 / 1000).
Proof.
  intros H1 H2. split.
  - intros Heq.
    destruct (ms_to_duration_str_hms d1 H1) as [F1 E1].
    destruct (ms_to_duration_str_hms d2 H2) as [F2 E2].
    rewrite F1, F2 in Heq.
    apply hms_str_inj in Heq;
      try (apply Z.div_pos; lia); try (apply Z.mod_pos_bound; lia).
    destruct Heq as [Hh [Hm Hs]]. lia.
  - intros Heq. unfold ms_to_duration_str. rewrite Heq. reflexivity.
Qed.

Lemma ms_to_duration_str_whole_seconds_witness :
  ms_to_duration_str 5400999 = ms_to_duration_str 5400000.
Proof.
  apply (proj2 (ms_to_duration_str_whole_seconds 5400999 5400000
                  ltac:(lia) ltac:(lia))).
  reflexivity.
Defined.

(** ** The fetch on payloads whose [data] may be null *)

Lemma get_time_entries_for_user_raw_list (client : AsyncClient)
  (team : string) (start_date end_date : Z) (uid : string) :
  get_time_entries_for_user_raw (data_request client) team start_date
    end_date uid =
  PyList (get_time_entries_for_user client team start_date end_date uid).
Proof.
  unfold get_time_entries_for_user_raw, get_time_entries_for_user,
    get_time_entries_for_user_try, data_request.
  destruct (get_time_entries client team start_date end_date uid)
    as [e|response]; [reflexivity|].
  cbn [bind try_except]. unfold raise_for_status.
  cbn [status_code].
  destruct ((200 <=? status_code response) && (status_code response <=? 299));
    [|reflexivity].
  cbn [bind ret]. unfold json. cbn [body].
  destruct (body response) as [| |p]; try reflexivity.
  cbn [bind ret get try_except data_value]. unfold ret.
  destruct (payload_data p); reflexivity.
Qed.

Lemma extend_lists (ls : list (list RawEntry)) (acc : list RawEntry) :
  for_each extend (map PyList ls) acc = inr (acc ++ List.concat ls)%list.
Proof.
  revert acc. induction ls as [|l ls IH]; intros acc; simpl.
  - rewrite app_nil_r. reflexivity.
  - rewrite IH, app_assoc. reflexivity.
Qed.

Lemma extend_none (results : list PyData) (acc : list RawEntry) :
  In PyNone results -> for_each extend results acc = inl TypeError.
Proof.
  revert acc. induction results as [|x results IH]; intros acc Hin;
    [contradiction|].
  simpl. destruct x as [l|]; [|reflexivity].
  simpl. apply IH. destruct Hin as [Hx|Hin]; [discriminate Hx | exact Hin].
Qed.

(** X20.  On payloads that hold a list under [data] the two functions
    written for any value under [data] are the ones of the typed model:
    [get_time_entries_for_user] returns the same list, and
    [get_all_time_entries] returns, without raising, the same entries. *)
Theorem raw_fetch_agrees (client : AsyncClient) (team : string)
  (start_date end_date : Z) (user_ids : list string) :
  (forall uid,
     get_time_entries_for_user_raw (data_request client) team start_date
       end_date uid =
     PyList (get_time_entries_for_user client team start_date end_date uid))
  /\
  get_all_time_entries_raw (data_request client) team start_date end_date
    user_ids =
  inr (get_all_time_entries client team start_date end_date user_ids).
Proof.
  split; [intros uid; apply get_time_entries_for_user_raw_list|].
  unfold get_all_time_entries_raw, get_all_time_entries.
  rewrite fold_left_extend.
  erewrite map_ext; [|intros uid; apply get_time_entries_for_user_raw_list].
  rewrite <- (map_map
                (get_time_entries_for_user client team start_date end_date)
                PyList).
  apply extend_lists.
Qed.

(** X21.  One null under [data] loses the entries of every user: when the
    fetch of one user of the list returns the null, [get_all_time_entries]
    raises TypeError, whatever the fetches of the other users returned. *)
Theorem null_data_aborts_fetch (client_get : DataRequest) (team : string)
  (start_date end_date : Z) (user_ids : list string) (uid : string) :
  In uid user_ids ->
  get_time_entries_for_user_raw client_get team start_date end_date uid
    = PyNone ->
  get_all_time_entries_raw client_get team start_date end_date user_ids
    = inl TypeError.
Proof.
  intros Hin Hnone. unfold get_all_time_entries_raw.
  apply extend_none. rewrite <- Hnone.
  apply (in_map (fun u => get_time_entries_for_user_raw client_get team
                            start_date end_date u)), Hin.
Qed.

Lemma null_data_aborts_fetch_witness :
  get_all_time_entries_raw null_data_request "team" 0 1 ["1"; "7"; "2"]
    = inl TypeError.
Proof.
  apply (null_data_aborts_fetch null_data_request "team" 0 1
           ["1"; "7"; "2"] "7").
  - right. left. reflexivity.
  - reflexivity.
Defined.
